(** * NearYou: cache layer, message generator, query routing, proximity gate

    A shallow embedding of the Python sources

    - [src/cache/memory_cache.py], [src/cache/redis_cache.py]
    - [services/message_generator/cache_utils.py],
      [services/message_generator/services/generator_service.py]
    - [src/query_service/query_engine.py], [src/query_service/app.py],
      [src/query_service/cache_manager.py]
    - [src/data_pipeline/operators.py], [src/data_pipeline/bytewax_flow.py],
      [src/data_pipeline/stream_replay.py]

    Conventions.  A Python [str] is represented by its UTF-8 encoding, a
    Rocq [string] of bytes, so [s.encode()] is the identity on the
    representation, literals read as in the source, byte order is code
    point order and a split on the one-byte separator [,] is exact.
    Readings of [time.time()] and distances are exact rationals.  A Python
    exception is a value of [exn]; [try]/[except] is [try_except]. *)

From Stdlib Require Import ZArith QArith Qround List String Ascii Bool Lia Lqa.
From Stdlib Require Import DecimalString DecimalZ.
From stdpp Require Import base option list gmap strings sorting.

Local Open Scope string_scope.
Local Open Scope Z_scope.

(** * Part I: the sources *)

(** ** Python builtins used by the sources *)

Module Py.

(** *** Exceptions *)

(** The exception classes that the modelled code can meet.  All of them
    derive from [Exception]. *)
Inductive exn : Type :=
| TypeError | ValueError | KeyError | UnicodeDecodeError | JSONDecodeError
| ConnectionError | TimeoutError | ResponseError | HTTPError | LLMError.

Inductive result (A : Type) : Type :=
| Ok (a : A)
| Raise (e : exn).
Arguments Ok {A} a.
Arguments Raise {A} e.

Definition bind {A B} (r : result A) (k : A -> result B) : result B :=
  match r with
  | Ok a => k a
  | Raise e => Raise e
  end.

(** [try: body  except Exception: handler] *)
Definition try_except {A} (body : result A) (handler : exn -> result A) : result A :=
  match body with
  | Ok a => Ok a
  | Raise e => handler e
  end.

(** [try: body  except cls: handler], other exceptions propagate. *)
Definition try_except_only {A} (cls : exn -> bool) (body : result A)
    (handler : exn -> result A) : result A :=
  match body with
  | Ok a => Ok a
  | Raise e => if cls e then handler e else Raise e
  end.

Definition is_JSONDecodeError (e : exn) : bool :=
  match e with JSONDecodeError => true | _ => false end.

Definition raises {A} (r : result A) : Prop := exists e, r = Raise e.

(** *** Strings *)

Definition byte_of (n : nat) : ascii := ascii_of_nat n.
Definition code (c : ascii) : N := N_of_ascii c.

Fixpoint str_map (f : ascii -> ascii) (s : string) : string :=
  match s with
  | EmptyString => EmptyString
  | String c s' => String (f c) (str_map f s')
  end.

Fixpoint str_forallb (p : ascii -> bool) (s : string) : bool :=
  match s with
  | EmptyString => true
  | String c s' => p c && str_forallb p s'
  end.

Definition is_ascii_byte (c : ascii) : bool := (code c <? 128)%N.
Definition is_ascii (s : string) : bool := str_forallb is_ascii_byte s.

(** [str.lower()] on a string of ASCII characters: [A]..[Z] become
    [a]..[z], every other character is kept. *)
Definition lower_byte (c : ascii) : ascii :=
  if ((65 <=? code c) && (code c <=? 90))%N
  then ascii_of_N (code c + 32) else c.
Definition ascii_lower (s : string) : string := str_map lower_byte s.

(** [s.split(sep)] for a one-character separator: one more piece than
    there are separators, so never the empty list. *)
Fixpoint split (sep : ascii) (s : string) : list string :=
  match s with
  | EmptyString => [EmptyString]
  | String c s' =>
      if Ascii.eqb c sep then EmptyString :: split sep s'
      else match split sep s' with
           | p :: ps => String c p :: ps
           | [] => [String c EmptyString]
           end
  end.

(** [sep.join(l)] *)
Definition join (sep : string) (l : list string) : string := String.concat sep l.

(** The characters [str.strip()] removes ([str.isspace]), each by its
    UTF-8 encoding: U+0009..U+000D, U+001C..U+0020, U+0085, U+00A0, U+1680,
    U+2000..U+200A, U+2028, U+2029, U+202F, U+205F, U+3000. *)
Definition bytes_str (l : list nat) : string :=
  string_of_list_ascii (List.map byte_of l).

Definition whitespace : list string :=
  List.map bytes_str
    [ [9]; [10]; [11]; [12]; [13]; [28]; [29]; [30]; [31]; [32];
      [194; 133]; [194; 160]; [225; 154; 128];
      [226; 128; 128]; [226; 128; 129]; [226; 128; 130]; [226; 128; 131];
      [226; 128; 132]; [226; 128; 133]; [226; 128; 134]; [226; 128; 135];
      [226; 128; 136]; [226; 128; 137]; [226; 128; 138];
      [226; 128; 168]; [226; 128; 169]; [226; 128; 175]; [226; 129; 159];
      [227; 128; 128] ]%nat.

Fixpoint drop_prefix (p s : string) : option string :=
  match p, s with
  | EmptyString, _ => Some s
  | String a p', String b s' => if Ascii.eqb a b then drop_prefix p' s' else None
  | String _ _, EmptyString => None
  end.

Fixpoint drop_first (pats : list string) (s : string) : option string :=
  match pats with
  | [] => None
  | p :: ps => match drop_prefix p s with
               | Some r => Some r
               | None => drop_first ps s
               end
  end.

Fixpoint lstrip_go (pats : list string) (fuel : nat) (s : string) : string :=
  match fuel with
  | O => s
  | S n => match drop_first pats s with
           | Some r => lstrip_go pats n r
           | None => s
           end
  end.

Definition lstrip (s : string) : string := lstrip_go whitespace (String.length s) s.
Definition rstrip (s : string) : string :=
  String.rev (lstrip_go (List.map String.rev whitespace) (String.length s) (String.rev s)).
Definition strip (s : string) : string := rstrip (lstrip s).

(** Truth value of a [str]: non-empty. *)
Definition str_truthy (s : string) : bool :=
  match s with EmptyString => false | _ => true end.

(** [str(n)] / [f"{n}"] for an [int]. *)
Definition str_of_int (z : Z) : string := NilZero.string_of_int (Z.to_int z).

(** [sorted(l)] on a list of [str]: the ascending arrangement of [l] in
    code point order. *)
Definition sorted (l : list string) : list string := merge_sort String.le l.

(** *** MD5 (RFC 1321), as [hashlib.md5(b).hexdigest()] *)

Module MD5.

Definition w32 (x : Z) : Z := x mod 2 ^ 32.
Definition add32 (a b : Z) : Z := w32 (a + b).
Definition not32 (a : Z) : Z := Z.lxor a (2 ^ 32 - 1).
Definition rotl32 (x n : Z) : Z :=
  Z.lor (w32 (Z.shiftl x n)) (Z.shiftr x (32 - n)).

Definition K : list Z :=
  [ 3614090360; 3905402710; 606105819; 3250441966; 4118548399; 1200080426;
    2821735955; 4249261313; 1770035416; 2336552879; 4294925233; 2304563134;
    1804603682; 4254626195; 2792965006; 1236535329; 4129170786; 3225465664;
    643717713; 3921069994; 3593408605; 38016083; 3634488961; 3889429448;
    568446438; 3275163606; 4107603335; 1163531501; 2850285829; 4243563512;
    1735328473; 2368359562; 4294588738; 2272392833; 1839030562; 4259657740;
    2763975236; 1272893353; 4139469664; 3200236656; 681279174; 3936430074;
    3572445317; 76029189; 3654602809; 3873151461; 530742520; 3299628645;
    4096336452; 1126891415; 2878612391; 4237533241; 1700485571; 2399980690;
    4293915773; 2240044497; 1873313359; 4264355552; 2734768916; 1309151649;
    4149444226; 3174756917; 718787259; 3951481745 ].

Definition S : list Z :=
  [ 7; 12; 17; 22; 7; 12; 17; 22; 7; 12; 17; 22; 7; 12; 17; 22;
    5; 9; 14; 20; 5; 9; 14; 20; 5; 9; 14; 20; 5; 9; 14; 20;
    4; 11; 16; 23; 4; 11; 16; 23; 4; 11; 16; 23; 4; 11; 16; 23;
    6; 10; 15; 21; 6; 10; 15; 21; 6; 10; 15; 21; 6; 10; 15; 21 ].

Definition nthZ (l : list Z) (i : Z) : Z := List.nth (Z.to_nat i) l 0.

(** Little-endian bytes of the low [n] bytes of [x]. *)
Fixpoint le_bytes (n : nat) (x : Z) : list Z :=
  match n with
  | O => []
  | Datatypes.S n' => x mod 256 :: le_bytes n' (x / 256)
  end.

Fixpoint le_word (bs : list Z) : Z :=
  match bs with
  | [] => 0
  | b :: bs' => b + 256 * le_word bs'
  end.

Definition pad (msg : list Z) : list Z :=
  let len := Z.of_nat (List.length msg) in
  let zeros := (55 - len) mod 64 in
  msg ++ [128] ++ List.repeat 0 (Z.to_nat zeros) ++ le_bytes 8 ((8 * len) mod 2 ^ 64).

Fixpoint chunks (fuel : nat) (n : nat) (l : list Z) : list (list Z) :=
  match fuel with
  | O => []
  | Datatypes.S f =>
      match l with
      | [] => []
      | _ => List.firstn n l :: chunks f n (List.skipn n l)
      end
  end.

Definition words (block : list Z) : list Z :=
  List.map le_word (chunks 16 4 block).

Definition round_fg (i b c d : Z) : Z * Z :=
  if i <? 16 then (Z.lor (Z.land b c) (Z.land (not32 b) d), i)
  else if i <? 32 then (Z.lor (Z.land d b) (Z.land (not32 d) c), (5 * i + 1) mod 16)
  else if i <? 48 then (Z.lxor (Z.lxor b c) d, (3 * i + 5) mod 16)
  else (Z.lxor c (Z.lor b (not32 d)), (7 * i) mod 16).

Definition step (m : list Z) (st : Z * Z * Z * Z) (i : Z) : Z * Z * Z * Z :=
  let '(a, b, c, d) := st in
  let '(f, g) := round_fg i b c d in
  let f' := add32 (add32 (add32 f a) (nthZ K i)) (nthZ m g) in
  (d, add32 b (rotl32 f' (nthZ S i)), b, c).

Definition process (st : Z * Z * Z * Z) (block : list Z) : Z * Z * Z * Z :=
  let m := words block in
  let '(a, b, c, d) := st in
  let '(a', b', c', d') :=
    List.fold_left (step m) (List.map Z.of_nat (List.seq 0 64)) st in
  (add32 a a', add32 b b', add32 c c', add32 d d').

Definition init : Z * Z * Z * Z := (1732584193, 4023233417, 2562383102, 271733878).

Definition digest (msg : list Z) : list Z :=
  let p := pad msg in
  let '(a, b, c, d) :=
    List.fold_left process (chunks (List.length p) 64 p) init in
  le_bytes 4 a ++ le_bytes 4 b ++ le_bytes 4 c ++ le_bytes 4 d.

Definition hex_digit (n : Z) : ascii :=
  if n <? 10 then ascii_of_N (Z.to_N (48 + n)) else ascii_of_N (Z.to_N (87 + n)).

Fixpoint hex (bs : list Z) : string :=
  match bs with
  | [] => EmptyString
  | b :: bs' => String (hex_digit (b / 16)) (String (hex_digit (b mod 16)) (hex bs'))
  end.

Definition bytes_of (s : string) : list Z :=
  List.map (fun c => Z.of_N (code c)) (list_ascii_of_string s).

Definition hexdigest (s : string) : string := hex (digest (bytes_of s)).

End MD5.

(** *** Values *)

Set Warnings "-register-all".

(** The Python values that reach the caches: [None], [bool], [int],
    [float] (its exact value), [str], [bytes], [datetime] (not
    JSON-serialisable), [list] and [dict] with [str] keys. *)
Inductive pyval : Type :=
| PNone
| PBool (b : bool)
| PInt (z : Z)
| PFloat (q : Q)
| PStr (s : string)
| PBytes (b : string)
| PDatetime (micros : Z) (aware : bool)
| PList (l : list pyval)
| PDict (d : list (string * pyval)).

(** Truth value, as [if v:] tests it. *)
Definition truthy (v : pyval) : bool :=
  match v with
  | PNone => false
  | PBool b => b
  | PInt z => negb (z =? 0)
  | PFloat q => negb (Qeq_bool q 0)
  | PStr s => str_truthy s
  | PBytes b => str_truthy b
  | PDatetime _ _ => true
  | PList l => match l with [] => false | _ => true end
  | PDict d => match d with [] => false | _ => true end
  end.

(** [isinstance(v, (str, bytes))] *)
Definition is_str_or_bytes (v : pyval) : bool :=
  match v with PStr _ | PBytes _ => true | _ => false end.

(** [d.get(k)] on the association list of a [dict]. *)
Fixpoint dict_get (d : list (string * pyval)) (k : string) : option pyval :=
  match d with
  | [] => None
  | (k', v) :: d' => if String.eqb k' k then Some v else dict_get d' k
  end.

(** *** UTF-8 *)

Definition in_range (lo hi x : N) : bool := ((lo <=? x) && (x <=? hi))%N.
Definition cont (x : N) : bool := in_range 128 191 x.

(** Well-formed UTF-8, as the strict decoder of [bytes.decode('utf-8')]
    accepts it: shortest forms only, no surrogates, at most U+10FFFF. *)
Fixpoint valid_utf8_bytes (l : list N) : bool :=
  match l with
  | [] => true
  | a :: l1 =>
      if (a <? 128)%N then valid_utf8_bytes l1
      else match l1 with
      | [] => false
      | b :: l2 =>
          if in_range 194 223 a then cont b && valid_utf8_bytes l2
          else match l2 with
          | [] => false
          | c :: l3 =>
              if (a =? 224)%N then in_range 160 191 b && cont c && valid_utf8_bytes l3
              else if in_range 225 236 a || in_range 238 239 a
                   then cont b && cont c && valid_utf8_bytes l3
              else if (a =? 237)%N then in_range 128 159 b && cont c && valid_utf8_bytes l3
              else match l3 with
              | [] => false
              | d :: l4 =>
                  if (a =? 240)%N
                  then in_range 144 191 b && cont c && cont d && valid_utf8_bytes l4
                  else if in_range 241 243 a
                  then cont b && cont c && cont d && valid_utf8_bytes l4
                  else if (a =? 244)%N
                  then in_range 128 143 b && cont c && cont d && valid_utf8_bytes l4
                  else false
              end
          end
      end
  end.

Definition valid_utf8 (b : string) : bool :=
  valid_utf8_bytes (List.map code (list_ascii_of_string b)).

(** [b.decode('utf-8')]: the text whose encoding is [b]. *)
Definition utf8_decode (b : string) : result string :=
  if valid_utf8 b then Ok b else Raise UnicodeDecodeError.

(** [s.encode('utf-8')]: a [str] is held by its encoding. *)
Definition utf8_encode (s : string) : string := s.

(** *** What the interpreter and its libraries supply *)

(** Functions of the Python runtime whose tables and grammars are not part
    of the repository.  The sources are modelled over any such runtime.
    - [str_lower]: [str.lower()] (Unicode case mapping);
    - [json_dumps], [json_loads]: [json.dumps(v)] and [json.loads(b)] on
      [bytes];
    - [int_of_str]: [int(s)]. *)
Class Runtime : Type := {
  str_lower : string -> string;
  json_dumps : pyval -> result string;
  json_loads : string -> result pyval;
  int_of_str : string -> result Z
}.

(** Two facts about [str.lower()]: on ASCII text it is [ascii_lower] (the
    interpreter's ASCII path), and it never empties a non-empty string. *)
Class LowerLaws (R : Runtime) : Prop := {
  lower_ascii : forall s, is_ascii s = true -> str_lower s = ascii_lower s;
  lower_nonempty : forall s, str_truthy (str_lower s) = str_truthy s
}.

End Py.

Import Py.

(** ** [src/cache/memory_cache.py] *)

Module MemoryCache.

(** [self.cache] maps a key to [(value, expire_time)]; [expire_time] is
    [None] or an instant of [time.time()]. *)
Record t : Type := mk {
  cache : gmap string (pyval * option Q);
  default_ttl : option Z
}.

(** [MemoryCache(default_ttl)] *)
Definition init (default_ttl : Z) : t := mk ∅ (Some default_ttl).

Definition with_cache (self : t) (c : gmap string (pyval * option Q)) : t :=
  mk c (default_ttl self).

(** [time.time() > expire_time] *)
Definition expired (now : Q) (expire_time : option Q) : bool :=
  match expire_time with
  | Some e => negb (Qle_bool now e)
  | None => false
  end.

(** [get(key)] at the instant [now]: the value returned and the cache
    afterwards (an expired entry is deleted on the way). *)
Definition get (self : t) (key : string) (now : Q) : pyval * t :=
  match cache self !! key with
  | None => (PNone, self)
  | Some (value, expire_time) =>
      if expired now expire_time
      then (PNone, with_cache self (delete key (cache self)))
      else (value, self)
  end.

(** [set(key, value, ttl)] *)
Definition set (self : t) (key : string) (value : pyval) (ttl : option Z)
    (now : Q) : bool * t :=
  let ttl := match ttl with Some x => Some x | None => default_ttl self end in
  let expire_time :=
    match ttl with
    | None => None
    | Some x => Some (now + inject_Z x)%Q
    end in
  (true, with_cache self (<[key := (value, expire_time)]> (cache self))).

(** [delete(key)] *)
Definition delete (self : t) (key : string) : bool * t :=
  match cache self !! key with
  | Some _ => (true, with_cache self (base.delete key (cache self)))
  | None => (false, self)
  end.

(** [exists(key)] *)
Definition exists_ (self : t) (key : string) (now : Q) : bool * t :=
  match cache self !! key with
  | None => (false, self)
  | Some (_, expire_time) =>
      if expired now expire_time
      then (false, with_cache self (base.delete key (cache self)))
      else (true, self)
  end.

(** One round of the reaper thread [_cleanup_expired_keys], which holds
    the lock for the whole sweep. *)
Definition cleanup (self : t) (now : Q) : t :=
  with_cache self (filter (fun kv => expired now (snd (snd kv)) = false) (cache self)).

End MemoryCache.

(** ** [src/cache/redis_cache.py] *)

Module RedisCache.

(** The Redis server as the client sees it: per key the stored bytes and
    the instant at which the key expires. *)
Abbreviation server := (gmap string (string * Q)).

(** What can go wrong on one round trip: [Some e] when the connection
    raises [e], [None] when the server answers. *)
Definition fault : Type := option exn.

(** [self.client.get(key)]: the bytes of a live key, [None] otherwise. *)
Definition client_get (srv : server) (f : fault) (key : string) (now : Q)
    : result (option string) :=
  match f with
  | Some e => Raise e
  | None =>
      Ok (match srv !! key with
          | Some (b, expires) => if Qle_bool expires now then None else Some b
          | None => None
          end)
  end.

(** [self.client.setex(key, ttl, value)]: Redis rejects a ttl that is not
    positive; otherwise the key holds [value] for [ttl] seconds. *)
Definition client_setex (srv : server) (f : fault) (key : string) (ttl : Z)
    (value : string) (now : Q) : result bool * server :=
  match f with
  | Some e => (Raise e, srv)
  | None =>
      if ttl <=? 0 then (Raise ResponseError, srv)
      else (Ok true, <[key := (value, (now + inject_Z ttl)%Q)]> srv)
  end.

(** [self.client] is [None] when the connection test of [__init__]
    failed. *)
Record t : Type := mk {
  client : bool;
  default_ttl : Z
}.

Section WithRuntime.
Context {R : Runtime}.

(** [get(key)] *)
Definition get (self : t) (srv : server) (f : fault) (key : string) (now : Q)
    : result pyval :=
  if negb (client self) then Ok PNone
  else
    try_except
      (bind (client_get srv f key now) (fun value =>
         match value with
         | Some b =>
             if str_truthy b then
               try_except_only is_JSONDecodeError
                 (json_loads b)
                 (fun _ => bind (utf8_decode b) (fun s => Ok (PStr s)))
             else Ok PNone
         | None => Ok PNone
         end))
      (fun _ => Ok PNone).

(** The bytes [set] hands to the server: a [str] is encoded, [bytes] are
    kept, anything else goes through [json.dumps] first. *)
Definition payload (value : pyval) : result string :=
  bind (if is_str_or_bytes value then Ok value
        else bind (json_dumps value) (fun s => Ok (PStr s)))
    (fun value =>
       match value with
       | PStr s => Ok (utf8_encode s)
       | PBytes b => Ok b
       | _ => Raise TypeError
       end).

(** [set(key, value, ttl)] *)
Definition set (self : t) (srv : server) (f : fault) (key : string)
    (value : pyval) (ttl : option Z) (now : Q) : result bool * server :=
  if negb (client self) then (Ok false, srv)
  else
    let ttl := match ttl with Some x => x | None => default_ttl self end in
    match payload value with
    | Raise _ => (Ok false, srv)
    | Ok b =>
        let '(r, srv') := client_setex srv f key ttl b now in
        (try_except r (fun _ => Ok false), srv')
    end.

End WithRuntime.

End RedisCache.

(** ** The two caches behind one interface *)

(** Both services bind [cache] to a [RedisCache] or, when Redis does not
    answer at start-up, to a [MemoryCache], and call [get] and [set] on
    whichever it is. *)
Module Cache.

Inductive backend : Type :=
| Redis (r : RedisCache.t)
| Memory (m : MemoryCache.t).

(** What one cache call finds outside the process: the clock and whether
    the round trip to Redis fails. *)
Record env : Type := mkEnv {
  now : Q;
  redis_fault : RedisCache.fault
}.

Section WithRuntime.
Context {R : Runtime}.

(** [cache.get(key)] *)
Definition backend_get (b : backend) (srv : RedisCache.server) (e : env)
    (key : string) : result pyval * backend :=
  match b with
  | Redis r => (RedisCache.get r srv (redis_fault e) key (now e), Redis r)
  | Memory m => let '(v, m') := MemoryCache.get m key (now e) in (Ok v, Memory m')
  end.

(** [cache.set(key, value, ttl)] *)
Definition backend_set (b : backend) (srv : RedisCache.server) (e : env)
    (key : string) (value : pyval) (ttl : option Z)
    : result bool * backend * RedisCache.server :=
  match b with
  | Redis r =>
      let '(res, srv') := RedisCache.set r srv (redis_fault e) key value ttl (now e) in
      (res, Redis r, srv')
  | Memory m =>
      let '(res, m') := MemoryCache.set m key value ttl (now e) in
      (Ok res, Memory m', srv)
  end.

End WithRuntime.

End Cache.

(** ** [services/message_generator/cache_utils.py] *)

Module CacheUtils.
Export Cache.

(** [req.user.dict()] and [req.poi.dict()]: the keys are those of the
    request models, so the defaults of [.get] are never used. *)
Record UserParams : Type := mkUser {
  age : Z;
  profession : string;
  interests : string
}.

Record PoiParams : Type := mkPoi {
  name : string;
  category : string;
  description : string
}.

(** The global [cache_stats]. *)
Record stats : Type := mkStats {
  hits : Z;
  misses : Z;
  total : Z
}.

(** The module's globals, and the Redis server its client talks to. *)
Record state : Type := mkState {
  CACHE_ENABLED : bool;
  CACHE_TTL : Z;
  cache : option backend;
  cache_stats : stats;
  redis : RedisCache.server
}.

(** Module initialisation: Redis when it answers the ping, the in-process
    cache when it does not, no cache when caching is disabled. *)
Definition init (enabled : bool) (ttl : Z) (redis_up : bool)
    (srv : RedisCache.server) : state :=
  mkState enabled ttl
    (if enabled then
       if redis_up then Some (Redis (RedisCache.mk true ttl))
       else Some (Memory (MemoryCache.init ttl))
     else None)
    (mkStats 0 0 0) srv.

Definition with_cache (st : state) (c : option backend) (srv : RedisCache.server) : state :=
  mkState (CACHE_ENABLED st) (CACHE_TTL st) c (cache_stats st) srv.

Definition with_stats (st : state) (s : stats) : state :=
  mkState (CACHE_ENABLED st) (CACHE_TTL st) (cache st) s (redis st).

(** [x in l] for a list of [str]. *)
Definition str_in (x : string) (l : list string) : bool :=
  existsb (String.eqb x) l.

Definition popular_categories : list string :=
  ["ristorante"; "bar"; "abbigliamento"; "supermercato"].

Section WithRuntime.
Context {R : Runtime}.

(** [generate_cache_key(user_params, poi_params)] *)
Definition generate_cache_key (user_params : UserParams) (poi_params : PoiParams) : string :=
  let age := age user_params in
  let age_range := str_of_int ((age / 5) * 5) +:+ "-" +:+ str_of_int (((age / 5) * 5) + 4) in
  let interests := interests user_params in
  let interests_list :=
    sorted (List.map (fun i => str_lower (strip i))
              (List.filter (fun i => str_truthy (strip i)) (split "," interests))) in
  let normalized_interests := join "," interests_list in
  let profession := str_lower (profession user_params) in
  let poi_name := str_lower (name poi_params) in
  let poi_category := str_lower (category poi_params) in
  let combined :=
    age_range +:+ ":" +:+ profession +:+ ":" +:+ normalized_interests
      +:+ ":" +:+ poi_name +:+ ":" +:+ poi_category in
  MD5.hexdigest (utf8_encode combined).

(** [get_cached_message(user_params, poi_params)] *)
Definition get_cached_message (st : state) (e : env) (user_params : UserParams)
    (poi_params : PoiParams) : result pyval * state :=
  match cache st with
  | None => (Ok PNone, st)
  | Some b =>
      if negb (CACHE_ENABLED st) then (Ok PNone, st)
      else
        let cache_key := generate_cache_key user_params poi_params in
        let '(res, b') := backend_get b (redis st) e cache_key in
        let st := with_cache st (Some b') (redis st) in
        match res with
        | Raise x => (Raise x, st)
        | Ok result =>
            let s := cache_stats st in
            let s := mkStats (hits s) (misses s) (total s + 1) in
            let s := if truthy result
                     then mkStats (hits s + 1) (misses s) (total s)
                     else mkStats (hits s) (misses s + 1) (total s) in
            (Ok result, with_stats st s)
        end
  end.

(** [cache_message(user_params, poi_params, message)] *)
Definition cache_message (st : state) (e : env) (user_params : UserParams)
    (poi_params : PoiParams) (message : string) : result bool * state :=
  match cache st with
  | None => (Ok false, st)
  | Some b =>
      if negb (CACHE_ENABLED st) then (Ok false, st)
      else
        let cache_key := generate_cache_key user_params poi_params in
        let ttl := CACHE_TTL st in
        let poi_category := str_lower (category poi_params) in
        let ttl := if str_in poi_category popular_categories
                   then CACHE_TTL st * 2 else ttl in
        let '(res, b', srv') :=
          backend_set b (redis st) e cache_key (PStr message) (Some ttl) in
        (res, with_cache st (Some b') srv')
  end.

End WithRuntime.

(** The report of [get_cache_stats()], without the backend's own
    [cache_info]. *)
Record report : Type := mkReport {
  r_enabled : bool;
  r_hits : Z;
  r_misses : Z;
  r_total : Z;
  r_hit_rate : Q
}.

(** [get_cache_stats()]: [None] stands for the answer [{"enabled": False}]
    given when there is no cache. *)
Definition get_cache_stats (st : state) : option report :=
  match cache st with
  | None => None
  | Some _ =>
      let s := cache_stats st in
      let hit_rate :=
        if 0 <? total s then (inject_Z (hits s) / inject_Z (total s))%Q else 0%Q in
      Some (mkReport (CACHE_ENABLED st) (hits s) (misses s) (total s) hit_rate)
  end.

End CacheUtils.

(** ** [services/message_generator/services/generator_service.py] *)

Module GeneratorService.
Import CacheUtils.

Definition nl : string := String (byte_of 10) EmptyString.

(** [get_prompt_template()] filled in by [PromptTemplate.format]. *)
Definition format_prompt (age : Z) (profession interests name category description : string)
    : string :=
  "Sei un sistema di advertising che crea un messaggio conciso e coinvolgente." +:+ nl
  +:+ "Utente:" +:+ nl
  +:+ "- Età: " +:+ str_of_int age +:+ nl
  +:+ "- Professione: " +:+ profession +:+ nl
  +:+ "- Interessi: " +:+ interests +:+ nl
  +:+ nl
  +:+ "Negozio:" +:+ nl
  +:+ "- Nome: " +:+ name +:+ nl
  +:+ "- Categoria: " +:+ category +:+ nl
  +:+ "- Descrizione aggiuntiva: " +:+ description +:+ nl
  +:+ nl
  +:+ "Condizioni:" +:+ nl
  +:+ "- L'utente è a pochi metri dal negozio." +:+ nl
  +:+ "- Il messaggio deve essere breve (max 30 parole) e invogliare l'utente a fermarsi." +:+ nl
  +:+ nl
  +:+ "Genera il messaggio in italiano:".

(** The LLM behind [self.llm_client]: the text it answers to a prompt, or
    the exception the call raises. *)
Definition llm_client : Type := string -> result string.

Fixpoint templates_get (templates : list (string * string)) (k default : string) : string :=
  match templates with
  | [] => default
  | (k', v) :: rest => if String.eqb k' k then v else templates_get rest k default
  end.

Section WithRuntime.
Context {R : Runtime}.

(** [_get_fallback_message(shop_name, category)] *)
Definition _get_fallback_message (shop_name category : string) : string :=
  let templates :=
    [ ("ristorante",
       "Sei vicino a " +:+ shop_name +:+ "! Un ottimo posto per una pausa pranzo gustosa.");
      ("bar", shop_name +:+ " è a pochi passi! Che ne dici di un ottimo caffè?");
      ("abbigliamento",
       "Dai un'occhiata alle offerte di " +:+ shop_name +:+ " proprio qui vicino!");
      ("supermercato",
       shop_name +:+ " è qui vicino, perfetto per fare la spesa velocemente.") ] in
  templates_get templates (str_lower category)
    ("Sei vicino a " +:+ shop_name +:+ "! Fermati a dare un'occhiata.").

(** [_call_llm(user_params, poi_params)] *)
Definition _call_llm (llm : llm_client) (user_params : UserParams)
    (poi_params : PoiParams) : result string :=
  try_except
    (let prompt_text :=
       format_prompt (age user_params) (profession user_params)
         (interests user_params) (name poi_params) (category poi_params)
         (description poi_params) in
     bind (llm prompt_text) (fun content =>
     let result := strip content in
     Ok result))
    (fun _ =>
       Ok (_get_fallback_message (name poi_params) (category poi_params))).

(** [generate_message(user_params, poi_params)]: the message and whether
    it came from the cache.  [e] is what the lookup finds, [e'] what the
    store finds once the LLM has answered. *)
Definition generate_message (llm : llm_client) (st : state) (e e' : env)
    (user_params : UserParams) (poi_params : PoiParams)
    : result (pyval * bool) * state :=
  let '(cached_message, st) := get_cached_message st e user_params poi_params in
  match cached_message with
  | Raise x => (Raise x, st)
  | Ok cached_message =>
      if truthy cached_message then (Ok (cached_message, true), st)
      else
        match _call_llm llm user_params poi_params with
        | Raise x => (Raise x, st)
        | Ok generated =>
            let '(res, st) := cache_message st e' user_params poi_params generated in
            match res with
            | Raise x => (Raise x, st)
            | Ok _ => (Ok (PStr generated, false), st)
            end
        end
  end.

End WithRuntime.

End GeneratorService.

(** ** [src/query_service/query_engine.py] *)

Module QueryEngine.

(** A [datetime]: naive, with [micros] the reading of the wall clock, or
    aware, with [micros] the instant in UTC; both count microseconds. *)
Record datetime : Type := mkDatetime {
  micros : Z;
  aware : bool
}.

(** [a - b]: the [timedelta] in microseconds; mixing a naive and an aware
    [datetime] raises [TypeError]. *)
Definition dt_sub (a b : datetime) : result Z :=
  if Bool.eqb (aware a) (aware b) then Ok (micros a - micros b)
  else Raise TypeError.

(** [timedelta.days]: whole days, rounded down. *)
Definition days (delta : Z) : Z := delta / 86400000000.

(** [timedelta.total_seconds()] *)
Definition total_seconds (delta : Z) : Q := (inject_Z delta / 1000000)%Q.

(** [should_use_stream(start_time, end_time, granularity)], with [now] the
    reading of [datetime.now()] (naive). *)
Definition should_use_stream (now : Z) (start_time end_time : datetime)
    (granularity : string) : result bool :=
  let now := mkDatetime now false in
  bind (dt_sub now start_time) (fun d =>
  let days_ago := days d in
  bind (dt_sub end_time start_time) (fun r =>
  let range_hours := (total_seconds r / 3600)%Q in
  if (days_ago <=? 7) && CacheUtils.str_in granularity ["minute"; "hour"] then Ok true
  else if Qle_bool range_hours 24 then Ok true
  else Ok false)).

End QueryEngine.

(** ** [src/query_service/cache_manager.py] *)

Module QueryCacheManager.
Import Cache.

(** [QueryCacheManager]: [self.cache] is a cache or [None], and the Redis
    server its client talks to. *)
Record t : Type := mk {
  cache : option backend;
  redis : RedisCache.server
}.

(** [QueryCacheManager()] *)
Definition init (enabled : bool) (ttl : Z) (redis_up : bool)
    (srv : RedisCache.server) : t :=
  mk
    (if enabled then
       if redis_up then Some (Redis (RedisCache.mk true ttl))
       else Some (Memory (MemoryCache.init ttl))
     else None)
    srv.

Section WithRuntime.
Context {R : Runtime}.

(** [json.dumps(params, sort_keys=True, default=str)], which falls back on
    [str] where [json.dumps] would raise. *)
Variable json_dumps_sorted : pyval -> string.

(** [get_cache_key(query_type, params)] *)
Definition get_cache_key (query_type : string) (params : pyval) : string :=
  let params_str := json_dumps_sorted params in
  let hash_str := MD5.hexdigest (utf8_encode params_str) in
  "query:" +:+ query_type +:+ ":" +:+ hash_str.

(** [cache_manager.get(key)] *)
Definition get (m : t) (e : Cache.env) (key : string)
    : result pyval * t :=
  match cache m with
  | None => (Ok PNone, m)
  | Some b =>
      let '(res, b') := backend_get b (redis m) e key in
      (try_except res (fun _ => Ok PNone), mk (Some b') (redis m))
  end.

(** [cache_manager.set(key, value, ttl)] *)
Definition set (m : t) (e : Cache.env) (key : string)
    (value : pyval) (ttl : option Z) : result bool * t :=
  match cache m with
  | None => (Ok false, m)
  | Some b =>
      let '(res, b', srv') := backend_set b (redis m) e key value ttl in
      (try_except res (fun _ => Ok false), mk (Some b') srv')
  end.

End WithRuntime.

End QueryCacheManager.

(** ** [src/query_service/models.py] and [src/query_service/app.py] *)

Module QueryService.
Import Cache QueryEngine.

Record TimeSeriesQuery : Type := mkQuery {
  metric : string;
  start_time : datetime;
  end_time : datetime;
  granularity : string;
  filters : option (list (string * pyval))
}.

Record TimeSeriesDataPoint : Type := mkPoint {
  timestamp : datetime;
  value : Q;
  metadata : option (list (string * pyval))
}.

Record TimeSeriesResponse : Type := mkResponse {
  data : list TimeSeriesDataPoint;
  source : string;
  cached : bool
}.

Definition opt_dict (d : option (list (string * pyval))) : pyval :=
  match d with Some d => PDict d | None => PNone end.

Definition pydatetime (t : datetime) : pyval := PDatetime (micros t) (aware t).

(** [query.dict()] *)
Definition query_dict (q : TimeSeriesQuery) : pyval :=
  PDict [ ("metric", PStr (metric q));
          ("start_time", pydatetime (start_time q));
          ("end_time", pydatetime (end_time q));
          ("granularity", PStr (granularity q));
          ("filters", opt_dict (filters q)) ].

Definition point_dict (d : TimeSeriesDataPoint) : pyval :=
  PDict [ ("timestamp", pydatetime (timestamp d));
          ("value", PFloat (value d));
          ("metadata", opt_dict (metadata d)) ].

(** [response.dict()] *)
Definition response_dict (r : TimeSeriesResponse) : pyval :=
  PDict [ ("data", PList (List.map point_dict (data r)));
          ("source", PStr (source r));
          ("cached", PBool (cached r)) ].

(** [TimeSeriesDataPoint] built from a row as [.dict()] writes it; other
    shapes, some of which pydantic would coerce, are refused here. *)
Definition point_of_dict (v : pyval) : result TimeSeriesDataPoint :=
  match v with
  | PDict d =>
      match dict_get d "timestamp", dict_get d "value" with
      | Some (PDatetime m a), Some (PFloat x) =>
          match dict_get d "metadata" with
          | None => Ok (mkPoint (mkDatetime m a) x (Some []))
          | Some PNone => Ok (mkPoint (mkDatetime m a) x None)
          | Some (PDict md) => Ok (mkPoint (mkDatetime m a) x (Some md))
          | Some _ => Raise ValueError
          end
      | _, _ => Raise ValueError
      end
  | _ => Raise ValueError
  end.

Fixpoint points_of_list (l : list pyval) : result (list TimeSeriesDataPoint) :=
  match l with
  | [] => Ok []
  | v :: l' =>
      bind (point_of_dict v) (fun d =>
      bind (points_of_list l') (fun ds => Ok (d :: ds)))
  end.

(** [TimeSeriesResponse] built from the mapping [cached] passed as keyword
    arguments: the fields are read from the mapping, and the field
    [cached] defaults to [False]. *)
Definition response_of_dict (v : pyval) : result TimeSeriesResponse :=
  match v with
  | PDict d =>
      match dict_get d "data", dict_get d "source" with
      | Some (PList rows), Some (PStr src) =>
          bind (points_of_list rows) (fun pts =>
          match dict_get d "cached" with
          | None => Ok (mkResponse pts src false)
          | Some (PBool b) => Ok (mkResponse pts src b)
          | Some _ => Raise ValueError
          end)
      | _, _ => Raise ValueError
      end
  | _ => Raise TypeError
  end.

(** What one request finds outside the process: the cache as it is at the
    probe and at the store, the clock read by [datetime.now()], and the
    rows the two sources answer with. *)
Record env : Type := mkEnv {
  probe : Cache.env;
  store : Cache.env;
  clock : Z;
  stream_rows : TimeSeriesQuery -> result (list TimeSeriesDataPoint);
  batch_rows : TimeSeriesQuery -> result (list TimeSeriesDataPoint)
}.

Section WithRuntime.
Context {R : Runtime}.

Variable json_dumps_sorted : pyval -> string.

(** The body of [query_timeseries] inside its [try]. *)
Definition query_timeseries_body (m : QueryCacheManager.t) (e : env) (query : TimeSeriesQuery)
    : result TimeSeriesResponse * QueryCacheManager.t :=
  let cache_key := QueryCacheManager.get_cache_key json_dumps_sorted "timeseries" (query_dict query) in
  let '(cached, m) := QueryCacheManager.get m (probe e) cache_key in
  match cached with
  | Raise x => (Raise x, m)
  | Ok cached =>
      if truthy cached then (response_of_dict cached, m)
      else
        match should_use_stream (clock e) (start_time query) (end_time query)
                (granularity query) with
        | Raise x => (Raise x, m)
        | Ok use_stream =>
            match (if use_stream then stream_rows e query else batch_rows e query) with
            | Raise x => (Raise x, m)
            | Ok result =>
                let response :=
                  mkResponse result (if use_stream then "stream" else "batch") false in
                let '(res, m) :=
                  QueryCacheManager.set m (store e) cache_key (response_dict response) (Some 300) in
                match res with
                | Raise x => (Raise x, m)
                | Ok _ => (Ok response, m)
                end
            end
        end
  end.

(** [query_timeseries(query)]: any exception becomes [HTTPException(500)]. *)
Definition query_timeseries (m : QueryCacheManager.t) (e : env) (query : TimeSeriesQuery)
    : result TimeSeriesResponse * QueryCacheManager.t :=
  let '(res, m) := query_timeseries_body m e query in
  (try_except res (fun _ => Raise HTTPError), m).

End WithRuntime.

End QueryService.

(** ** [src/data_pipeline/operators.py] *)

Module Operators.
Import CacheUtils.

(** [MAX_POI_DISTANCE], in metres. *)
Definition MAX_POI_DISTANCE : Q := 200.

(** The event after the nearest-shop stage: the fields of the GPS record,
    which this stage passes on, and the keys it reads or writes, each
    [None] while the key is absent.  The shop columns have the types of
    the [shops] table. *)
Record event : Type := mkEvent {
  gps : list (string * pyval);
  shop_id : option Z;
  shop_name : option string;
  shop_category : option string;
  distance : option Q;
  poi_info : option string
}.

(** [event["poi_info"] = message] *)
Definition set_poi_info (ev : event) (message : string) : event :=
  mkEvent (gps ev) (shop_id ev) (shop_name ev) (shop_category ev) (distance ev)
    (Some message).

(** A row of the [users] table as [_get_user_profile] returns it. *)
Record profile : Type := mkProfile {
  user_id : Z;
  p_age : Z;
  p_profession : string;
  p_interests : string
}.

(** [DatabaseConnections]: of its fields, the memo [_message_cache]. *)
Record connections : Type := mkConn {
  _message_cache : gmap string string
}.

(** The answer of the generator to one POST: the status code and what
    [response.json()["message"]] evaluates to. *)
Record response : Type := mkHttp {
  status_code : Z;
  json_message : result string
}.

(** What the stage finds outside the process: the rows of the [users]
    table for a user id, and the generator's answer to a payload; either
    call may raise. *)
Record env : Type := mkEnv {
  users_rows : Z -> result (list profile);
  post_generate : UserParams * PoiParams -> result response
}.

(** The calls the stage makes to its collaborators, in order. *)
Inductive effect : Type :=
| ProfileLookup (uid : Z)
| GeneratorCall (payload : UserParams * PoiParams).

(** [f"{x:.0f}"] for a distance, which is not negative: the nearest
    integer, ties to even. *)
Definition round_half_even (x : Q) : Z :=
  let f := Qfloor x in
  match ((x - inject_Z f) ?= 1 # 2)%Q with
  | Lt => f
  | Gt => f + 1
  | Eq => if Z.even f then f else f + 1
  end.

Definition format_0f (x : Q) : string := str_of_int (round_half_even x).

(** [d[k]]: [KeyError] when the key is absent. *)
Definition item {A} (field : option A) : result A :=
  match field with
  | Some a => Ok a
  | None => Raise KeyError
  end.

(** [get_cache_key(user_id, shop_id)] *)
Definition get_cache_key (user_id shop_id : Z) : string :=
  str_of_int user_id +:+ ":" +:+ str_of_int shop_id.

(** [_get_user_profile(conn, user_id)] *)
Definition _get_user_profile (e : env) (user_id : Z) : option profile :=
  match users_rows e user_id with
  | Ok (row :: _) => Some row
  | Ok [] => None
  | Raise _ => None
  end.

(** The payload [_generate_message] posts. *)
Definition payload (user : profile) (shop : event) : result (UserParams * PoiParams) :=
  bind (item (shop_name shop)) (fun name =>
  bind (item (shop_category shop)) (fun category =>
  bind (item (distance shop)) (fun d =>
  Ok (mkUser (p_age user) (p_profession user) (p_interests user),
      mkPoi name category ("Negozio a " +:+ format_0f d +:+ "m di distanza"))))).

(** [_generate_message(conn, user, shop)]: the message, the memo
    afterwards and whether the generator was called. *)
Definition _generate_message (e : env) (conn : connections) (user : profile)
    (shop : event) : string * connections * list effect :=
  match item (shop_id shop) with
  | Raise _ => (EmptyString, conn, [])
  | Ok sid =>
      let cache_key := get_cache_key (user_id user) sid in
      match _message_cache conn !! cache_key with
      | Some message => (message, conn, [])
      | None =>
          match payload user shop with
          | Raise _ => (EmptyString, conn, [])
          | Ok pl =>
              match post_generate e pl with
              | Raise _ => (EmptyString, conn, [GeneratorCall pl])
              | Ok response =>
                  if status_code response =? 200 then
                    match json_message response with
                    | Ok message =>
                        (message,
                         mkConn (<[cache_key := message]> (_message_cache conn)),
                         [GeneratorCall pl])
                    | Raise _ => (EmptyString, conn, [GeneratorCall pl])
                    end
                  else (EmptyString, conn, [GeneratorCall pl])
              end
          end
      end
  end.

(** [distance > MAX_POI_DISTANCE] with [distance = event.get("distance",
    float('inf'))]. *)
Definition too_far (ev : event) : bool :=
  match distance ev with
  | None => true
  | Some d => negb (Qle_bool d MAX_POI_DISTANCE)
  end.

Section WithRuntime.
Context {R : Runtime}.

(** [check_proximity_and_generate_message(item, conn)]: the events
    emitted, the connections afterwards and the calls made. *)
Definition check_proximity_and_generate_message (e : env) (conn : connections)
    (it : string * event) : result (list (string * event)) * connections * list effect :=
  let '(key, event) := it in
  if too_far event then (Ok [(key, set_poi_info event EmptyString)], conn, [])
  else
    match int_of_str key with
    | Raise x => (Raise x, conn, [])
    | Ok uid =>
        match _get_user_profile e uid with
        | Some user_profile =>
            let '(message, conn', calls) := _generate_message e conn user_profile event in
            (Ok [(key, set_poi_info event message)], conn', ProfileLookup uid :: calls)
        | None =>
            (Ok [(key, set_poi_info event EmptyString)], conn, [ProfileLookup uid])
        end
    end.

End WithRuntime.

End Operators.

(** ** A runtime for concrete runs *)

(** A small runtime on which the model can be evaluated.  It agrees with
    Python on the inputs the examples use: [str.lower()] on ASCII
    text; [json.dumps] on [None], [bool] and [int], and its [TypeError]
    on [datetime]; [json.loads] on the texts [null], [true], [false], on
    canonical integer literals, and its [JSONDecodeError] on texts that
    start with another letter; [int] on canonical decimal literals.
    Other inputs are outside this fragment and answered with an error. *)
Module RefRuntime.

Definition parse_int (s : string) : option Z :=
  match NilZero.int_of_string s with
  | Some d => if String.eqb (str_of_int (Z.of_int d)) s then Some (Z.of_int d) else None
  | None => None
  end.

Definition dumps (v : pyval) : result string :=
  match v with
  | PNone => Ok "null"
  | PBool true => Ok "true"
  | PBool false => Ok "false"
  | PInt z => Ok (str_of_int z)
  | _ => Raise TypeError
  end.

Definition loads (b : string) : result pyval :=
  if negb (valid_utf8 b) then Raise UnicodeDecodeError
  else if String.eqb b "null" then Ok PNone
  else if String.eqb b "true" then Ok (PBool true)
  else if String.eqb b "false" then Ok (PBool false)
  else match parse_int b with
       | Some z => Ok (PInt z)
       | None => Raise JSONDecodeError
       end.

Definition int_ (s : string) : result Z :=
  match parse_int s with
  | Some z => Ok z
  | None => Raise ValueError
  end.

Definition runtime : Runtime := {|
  str_lower := ascii_lower;
  json_dumps := dumps;
  json_loads := loads;
  int_of_str := int_
|}.

End RefRuntime.

(** ** [src/cache/redis_cache.py]: [delete], [exists] and [info] *)

Module RedisCacheOps.
Import RedisCache.

(** [self.client.delete(key)]: the number of keys removed, 1 for a live
    key and 0 otherwise. *)
Definition client_delete (srv : server) (f : fault) (key : string) (now : Q)
    : result Z * server :=
  match f with
  | Some e => (Raise e, srv)
  | None =>
      match srv !! key with
      | Some (_, expires) =>
          (Ok (if Qle_bool expires now then 0 else 1), base.delete key srv)
      | None => (Ok 0, srv)
      end
  end.

(** [self.client.exists(key)]: the number of live keys among the one
    asked for. *)
Definition client_exists (srv : server) (f : fault) (key : string) (now : Q)
    : result Z :=
  match f with
  | Some e => Raise e
  | None =>
      Ok (match srv !! key with
          | Some (_, expires) => if Qle_bool expires now then 0 else 1
          | None => 0
          end)
  end.

(** [self.client.info()]: the server's INFO reply as a [dict]. *)
Definition client_info (f : fault) (reply : list (string * pyval))
    : result (list (string * pyval)) :=
  match f with
  | Some e => Raise e
  | None => Ok reply
  end.

(** [delete(key)] *)
Definition delete (self : t) (srv : server) (f : fault) (key : string) (now : Q)
    : result bool * server :=
  if negb (client self) then (Ok false, srv)
  else
    let '(r, srv') := client_delete srv f key now in
    (try_except (bind r (fun n => Ok (negb (n =? 0)))) (fun _ => Ok false), srv').

(** [exists(key)] *)
Definition exists_ (self : t) (srv : server) (f : fault) (key : string) (now : Q)
    : result bool :=
  if negb (client self) then Ok false
  else
    try_except
      (bind (client_exists srv f key now) (fun n => Ok (negb (n =? 0))))
      (fun _ => Ok false).

(** What [info()] returns: [{"status": "disconnected"}], the report of a
    connected server, or [{"status": "error", "message": str(e)}]. *)
Inductive info_result : Type :=
| Disconnected
| Connected (used_memory_human connected_clients uptime_in_days : pyval) (hit_rate : Q)
| Error.

(** [d.get(k, default)] *)
Definition get_default (d : list (string * pyval)) (k : string) (default : pyval) : pyval :=
  match dict_get d k with
  | Some v => v
  | None => default
  end.

(** The number a value stands for in [+] and [/]; [None] where the
    operation raises [TypeError]. *)
Definition number (v : pyval) : option Q :=
  match v with
  | PInt z => Some (inject_Z z)
  | PBool b => Some (if b then 1 else 0)%Q
  | PFloat q => Some q
  | _ => None
  end.

(** [info()]: [hit_rate] is [hits / (hits + misses or 1)], where
    [keyspace_hits] defaults to 0 and [keyspace_misses] to 1; a division by
    zero would raise and give [Error]. *)
Definition info (self : t) (f : fault) (reply : list (string * pyval)) : info_result :=
  if negb (client self) then Disconnected
  else
    match client_info f reply with
    | Raise _ => Error
    | Ok info =>
        match number (get_default info "keyspace_hits" (PInt 0)),
              number (get_default info "keyspace_misses" (PInt 1)) with
        | Some hits, Some misses =>
            let sum := (hits + misses)%Q in
            let denominator := if Qeq_bool sum 0 then 1%Q else sum in
            if Qeq_bool denominator 0 then Error
            else
              Connected (get_default info "used_memory_human" PNone)
                (get_default info "connected_clients" PNone)
                (get_default info "uptime_in_days" PNone)
                (hits / denominator)%Q
        | _, _ => Error
        end
    end.

End RedisCacheOps.

(** ** [src/data_pipeline/operators.py]: the stages around the proximity stage *)

Module OperatorsIO.
Import CacheUtils Operators.

(** The row the query of [_find_nearest_shop] answers with; the columns
    have the types of the [shops] table and the distance is in metres. *)
Record shop_row : Type := mkShop {
  row_shop_id : Z;
  row_shop_name : string;
  row_category : string;
  row_distance : Q
}.

(** The tuple [write_to_clickhouse] inserts into [user_events]. *)
Record user_event : Type := mkUserEvent {
  event_id : pyval;
  event_time : Z;
  ue_user_id : Z;
  latitude : pyval;
  longitude : pyval;
  poi_range : Q;
  poi_name : string;
  ue_poi_info : string
}.

(** What the three stages find outside the process: the collaborators of
    the proximity stage, the answer of [pool.fetchrow] to a longitude and
    a latitude, and the reading of
    [datetime.fromisoformat(t).astimezone(timezone.utc)] in microseconds. *)
Record services : Type := mkServices {
  stage_env : Operators.env;
  fetchrow : pyval -> pyval -> result (option shop_row);
  utc_of_iso : pyval -> result Z
}.

(** The calls the stages make, in order: the query for the nearest shop,
    the calls of the proximity stage, the insert. *)
Inductive effect : Type :=
| ShopQuery (lon lat : pyval)
| Stage (c : Operators.effect)
| Insert (row : user_event).

(** [_find_nearest_shop(conn, lat, lon)]: the row, or [None] when there
    is none or the query raises. *)
Definition _find_nearest_shop (s : services) (lat lon : pyval)
    : option shop_row * list effect :=
  (match fetchrow s lon lat with
   | Ok (Some row) => Some row
   | Ok None => None
   | Raise _ => None
   end,
   [ShopQuery lon lat]).

(** [event.update(shop)] *)
Definition update (ev : event) (shop : shop_row) : event :=
  mkEvent (gps ev) (Some (row_shop_id shop)) (Some (row_shop_name shop))
    (Some (row_category shop)) (Some (row_distance shop)) (poi_info ev).

(** [enrich_with_nearest_shop(item, conn)] *)
Definition enrich_with_nearest_shop (s : services) (it : string * event)
    : result (list (string * event)) * list effect :=
  let '(key, event) := it in
  match item (dict_get (gps event) "latitude") with
  | Raise x => (Raise x, [])
  | Ok lat =>
      match item (dict_get (gps event) "longitude") with
      | Raise x => (Raise x, [])
      | Ok lon =>
          let '(shop, calls) := _find_nearest_shop s lat lon in
          match shop with
          | Some shop => (Ok [(key, update event shop)], calls)
          | None => (Ok [], calls)
          end
      end
  end.

Section WithRuntime.
Context {R : Runtime}.

(** The tuple built inside the [try] of [write_to_clickhouse]; its
    fields are evaluated in this order. *)
Definition row_of (s : services) (key : string) (ev : event) : result user_event :=
  bind (item (dict_get (gps ev) "timestamp")) (fun t =>
  bind (utc_of_iso s t) (fun ts =>
  let offset := default (PInt 0) (dict_get (gps ev) "_offset") in
  bind (int_of_str key) (fun uid =>
  bind (item (dict_get (gps ev) "latitude")) (fun lat =>
  bind (item (dict_get (gps ev) "longitude")) (fun lon =>
  Ok (mkUserEvent offset ts uid lat lon
        (default 0%Q (distance ev))
        (default EmptyString (shop_name ev))
        (default EmptyString (poi_info ev)))))))).

(** [write_to_clickhouse(item, conn)]: returns [None] whatever happens;
    what is left of it is the insert it makes, if it gets that far
    ([get_ch_client] builds the client without connecting). *)
Definition write_to_clickhouse (s : services) (it : string * event) : list effect :=
  let '(key, event) := it in
  match row_of s key event with
  | Ok row => [Insert row]
  | Raise _ => []
  end.

End WithRuntime.

End OperatorsIO.

(** ** [src/data_pipeline/bytewax_flow.py] *)

Module BytewaxFlow.
Import CacheUtils Operators OperatorsIO.

(** What the source hands to [parse_kafka_message]: a
    [KafkaSourceMessage] with its key and value, or an object without
    these attributes. *)
Inductive kafka_msg : Type :=
| KafkaSourceMessage (key value : pyval)
| OtherObject.

(** A call that returns, or raises [AttributeError]. *)
Inductive outcome (A : Type) : Type :=
| Returns (a : A)
| AttributeError.
Arguments Returns {A} a.
Arguments AttributeError {A}.

Section WithRuntime.
Context {R : Runtime}.

(** [str(v)]; [json.loads] on a [str]; the text [str(e)] of the exception
    [e] raised on a value, and of the [AttributeError] raised on it. *)
Variable py_str : pyval -> string.
Variable loads_str : string -> result pyval.
Variable exception_text : exn -> pyval -> string.
Variable attribute_error_text : option pyval -> string.

Definition error_item (fields : list (string * pyval)) : string * pyval :=
  ("error", PDict fields).

(** The part of [parse_kafka_message] after the JSON text is at hand. *)
Definition parse_text (raw_value : pyval) (value_str : string) : string * pyval :=
  match loads_str value_str with
  | Raise JSONDecodeError =>
      error_item
        [("error", PStr ("Invalid JSON: " +:+ exception_text JSONDecodeError raw_value));
         ("raw_value", PStr value_str)]
  | Raise x => error_item [("error", PStr (exception_text x raw_value))]
  | Ok (PDict d) =>
      (py_str (default (PStr "unknown") (dict_get d "user_id")), PDict d)
  | Ok value =>
      error_item
        [("error", PStr ("Attribute error: " +:+ attribute_error_text (Some value)))]
  end.

(** [parse_kafka_message(kafka_msg)] *)
Definition parse_kafka_message (kafka_msg : kafka_msg) : string * pyval :=
  match kafka_msg with
  | OtherObject =>
      error_item [("error", PStr ("Attribute error: " +:+ attribute_error_text None))]
  | KafkaSourceMessage raw_key raw_value =>
      match raw_value with
      | PBytes b =>
          match utf8_decode b with
          | Ok value_str => parse_text raw_value value_str
          | Raise x => error_item [("error", PStr (exception_text x raw_value))]
          end
      | PStr value_str => parse_text raw_value value_str
      | PDict d =>
          (py_str (default (PStr "unknown") (dict_get d "user_id")), raw_value)
      | _ => ("unknown", raw_value)
      end
  end.

(** [validate_message(parsed_data)]; the warning for an error item calls
    [value.get], which only a [dict] has. *)
Definition validate_message (parsed_data : string * pyval) : outcome bool :=
  let '(key, value) := parsed_data in
  if String.eqb key "error" then
    match value with
    | PDict _ => Returns false
    | _ => AttributeError
    end
  else
    match value with
    | PDict d =>
        match dict_get d "user_id" with
        | None => Returns false
        | Some _ => Returns true
        end
    | _ => Returns false
    end.

(** [replay_process(event)], the callback of the replay mode: the three
    stages on one event, with connections of its own. *)
Definition replay_process (s : services) (event : list (string * pyval))
    : result unit * list effect :=
  let db_conn := mkConn ∅ in
  let key := py_str (default (PStr "unknown") (dict_get event "user_id")) in
  let value := mkEvent event None None None None None in
  let '(enriched, calls) := enrich_with_nearest_shop s (key, value) in
  match enriched with
  | Raise x => (Raise x, calls)
  | Ok [] => (Ok tt, calls)
  | Ok (enriched0 :: _) =>
      let '(with_msg, _, calls') :=
        check_proximity_and_generate_message (stage_env s) db_conn enriched0 in
      match with_msg with
      | Raise x => (Raise x, (calls ++ List.map Stage calls')%list)
      | Ok [] => (Ok tt, (calls ++ List.map Stage calls')%list)
      | Ok (with_msg0 :: _) =>
          (Ok tt,
           (calls ++ List.map Stage calls' ++ write_to_clickhouse s with_msg0)%list)
      end
  end.

End WithRuntime.

End BytewaxFlow.

(** ** [src/data_pipeline/stream_replay.py] *)

Module StreamReplay.
Import CacheUtils.

(** [x == u] for an [int] [u], as [x in user_filter] tests it. *)
Definition eq_int (x : pyval) (u : Z) : bool :=
  match x with
  | PInt z => z =? u
  | PBool b => (if b then 1 else 0) =? u
  | PFloat q => Qeq_bool q (inject_Z u)
  | _ => false
  end.

(** [user_filter and event.get("user_id") not in user_filter] *)
Definition filtered_out (user_filter : option (list Z)) (event : list (string * pyval))
    : bool :=
  match user_filter with
  | None => false
  | Some [] => false
  | Some us => negb (existsb (eq_int (default PNone (dict_get event "user_id"))) us)
  end.

Section Replay.

(** The state the callback works on, the callback, and
    [datetime.fromisoformat(t).timestamp()]. *)
Variable S : Type.
Variable process_callback : S -> list (string * pyval) -> result unit * S.
Variable timestamp_of : pyval -> result Q.

(** The loop [async for msg in self.consumer] of [replay_time_range] on
    the messages that arrive after the seek, each already deserialized:
    the count returned, or [None] while the loop is still waiting for the
    next message, and the state the callback has reached. *)
Fixpoint replay_loop (end_timestamp : Q) (user_filter : option (list Z))
    (msgs : list pyval) (st : S) (events_processed : Z) : option Z * S :=
  match msgs with
  | [] => (None, st)
  | msg :: msgs' =>
      match msg with
      | PDict event =>
          match timestamp_of (default (PStr EmptyString) (dict_get event "timestamp")) with
          | Raise _ => replay_loop end_timestamp user_filter msgs' st events_processed
          | Ok t =>
              if negb (Qle_bool t end_timestamp) then (Some events_processed, st)
              else if filtered_out user_filter event
              then replay_loop end_timestamp user_filter msgs' st events_processed
              else
                let '(r, st') := process_callback st event in
                match r with
                | Ok _ =>
                    replay_loop end_timestamp user_filter msgs' st' (events_processed + 1)
                | Raise _ =>
                    replay_loop end_timestamp user_filter msgs' st' events_processed
                end
          end
      | _ => replay_loop end_timestamp user_filter msgs' st events_processed
      end
  end.

End Replay.

End StreamReplay.

(** * Part II: the vocabulary of the properties *)

(** ** Strings *)

Module PyProps.

(** The string does not contain the separator. *)
Definition has_no (sep : ascii) (s : string) : bool :=
  str_forallb (fun c => negb (Ascii.eqb c sep)) s.

(** A byte that [f] neither produces from another byte nor changes. *)
Definition fixed_by (f : ascii -> ascii) (a : ascii) : Prop :=
  forall c, Ascii.eqb a (f c) = Ascii.eqb a c.

(** Every byte of the string satisfies [P]. *)
Fixpoint str_Forall (P : ascii -> Prop) (s : string) : Prop :=
  match s with
  | EmptyString => True
  | String c s' => P c /\ str_Forall P s'
  end.

(** The 256 bytes, for facts checked byte by byte. *)
Definition all_bytes : list ascii := List.map ascii_of_nat (List.seq 0 256).

(** [fixed_by lower_byte], decided by running over all bytes. *)
Definition fixed_by_lower (a : ascii) : bool :=
  forallb (fun c => Bool.eqb (Ascii.eqb a (lower_byte c)) (Ascii.eqb a c)) all_bytes.

End PyProps.

(** ** The in-process cache *)

Module MemoryCacheProps.
Import MemoryCache.

(** The calls that threads may make between two calls of interest; each
    method body runs under [self.lock], so calls interleave whole.  Each
    call comes with the reading of [time.time()] it makes. *)
Inductive call : Type :=
| CGet (key : string)
| CSet (key : string) (value : pyval) (ttl : option Z)
| CDelete (key : string)
| CExists (key : string)
| CCleanup.

Definition run_call (self : t) (c : Q * call) : t :=
  let '(now, c) := c in
  match c with
  | CGet k => snd (get self k now)
  | CSet k v ttl => snd (set self k v ttl now)
  | CDelete k => snd (delete self k)
  | CExists k => snd (exists_ self k now)
  | CCleanup => cleanup self now
  end.

Definition run (self : t) (cs : list (Q * call)) : t :=
  List.fold_left run_call cs self.

(** A [set] or [delete] on [key]. *)
Definition writes (key : string) (c : Q * call) : Prop :=
  match snd c with
  | CSet k _ _ => k = key
  | CDelete k => k = key
  | _ => False
  end.

End MemoryCacheProps.

(** ** The remote cache *)

Module RedisCacheProps.
Import RedisCache.

Section WithRuntime.
Context {R : Runtime}.

(** The backend is unavailable: no connected client, or the round trip
    raises. *)
Definition unavailable (self : t) (f : fault) : Prop :=
  client self = false \/ exists e, f = Some e.

(** The values that come back as they went in: a non-empty [str] whose
    bytes [json.loads] rejects, or a value that is neither [str] nor
    [bytes], that [json.dumps] serialises and that [json.loads] reads back
    from the serialised text. *)
Definition round_trips (v : pyval) : Prop :=
  match v with
  | PStr s =>
      str_truthy s = true /\ valid_utf8 s = true
      /\ json_loads s = Raise JSONDecodeError
  | PBytes _ => False
  | _ => exists txt, json_dumps v = Ok txt /\ str_truthy txt = true
                     /\ json_loads txt = Ok v
  end.

End WithRuntime.

End RedisCacheProps.

(** ** The fingerprint of the specification *)

Module FingerprintSpec.
Import CacheUtils.

(** Two strings that differ at most in the case of their letters. *)
Fixpoint recased (s1 s2 : string) : Prop :=
  match s1, s2 with
  | EmptyString, EmptyString => True
  | String a s1', String b s2' => lower_byte a = lower_byte b /\ recased s1' s2'
  | _, _ => False
  end.

Section WithRuntime.
Context {R : Runtime}.

(** The fingerprint as the specification words it: the age bucketed to
    [floor(age/5)*5 .. floor(age/5)*5+4]; the interests split on commas,
    trimmed, lowercased, empties dropped, sorted ascending and rejoined
    with commas; the other fields lowercased; MD5 of the UTF-8 bytes of
    [age_range:profession:interests:poi_name:poi_category]. *)
Definition age_bucket (age : Z) : Z * Z :=
  let lo := Qfloor (inject_Z age / 5) * 5 in (lo, lo + 4).

Definition normalize_interests (interests : string) : string :=
  join ","
    (sorted (List.filter str_truthy
               (List.map str_lower (List.map strip (split "," interests))))).

Definition fingerprint (u : UserParams) (p : PoiParams) : string :=
  let '(lo, hi) := age_bucket (age u) in
  MD5.hexdigest
    (utf8_encode
       (str_of_int lo +:+ "-" +:+ str_of_int hi
        +:+ ":" +:+ str_lower (profession u)
        +:+ ":" +:+ normalize_interests (interests u)
        +:+ ":" +:+ str_lower (name p)
        +:+ ":" +:+ str_lower (category p))).

(** The list that [generate_cache_key] sorts. *)
Definition interests_items (interests : string) : list string :=
  List.map (fun i => str_lower (strip i))
    (List.filter (fun i => str_truthy (strip i)) (split "," interests)).

End WithRuntime.

End FingerprintSpec.

(** ** The message generator *)

Module GeneratorProps.
Import CacheUtils GeneratorService.

(** The key holds [msg] until the instant [expires], in whichever backend
    the state uses. *)
Definition stored (st : state) (key msg : string) (expires : Q) : Prop :=
  match cache st with
  | Some (Memory m) => MemoryCache.cache m !! key = Some (PStr msg, Some expires)
  | Some (Redis _) => redis st !! key = Some (msg, expires)
  | None => False
  end.

(** The categories whose messages are kept twice as long. *)
Definition is_popular (c : string) : Prop :=
  c = "ristorante" \/ c = "bar" \/ c = "abbigliamento" \/ c = "supermercato".

(** The calls that reach the module's globals. *)
Inductive request : Type :=
| RGetCached (u : UserParams) (p : PoiParams)
| RCacheMessage (u : UserParams) (p : PoiParams) (message : string)
| RGenerate (llm : llm_client) (e' : env) (u : UserParams) (p : PoiParams)
| RStats.

Section WithRuntime.
Context {R : Runtime}.

(** The globals after one call, and after a sequence of calls, each under
    the environment it finds. *)
Definition step (st : state) (r : env * request) : state :=
  match snd r with
  | RGetCached u p => snd (get_cached_message st (fst r) u p)
  | RCacheMessage u p m => snd (cache_message st (fst r) u p m)
  | RGenerate llm e' u p => snd (generate_message llm st (fst r) e' u p)
  | RStats => st
  end.

Definition run (st : state) (rs : list (env * request)) : state :=
  List.fold_left step rs st.

End WithRuntime.

(** What holds of the globals in every state the module can reach. *)
Definition consistent (enabled : bool) (st : state) : Prop :=
  let s := cache_stats st in
  hits s + misses s = total s /\ 0 <= hits s /\ 0 <= misses s
  /\ CACHE_ENABLED st = enabled
  /\ (enabled = true <-> cache st <> None).

(** One more lookup counted, as a hit or as a miss. *)
Definition counted (s s' : stats) : Prop :=
  total s' = total s + 1
  /\ ((hits s' = hits s + 1 /\ misses s' = misses s)
      \/ (hits s' = hits s /\ misses s' = misses s + 1)).

End GeneratorProps.

(** ** The routing rule of the specification *)

Module RoutingSpec.

(** The routing rule as the specification words it, on naive datetimes:
    stream if [start_time >= now - 7 days] and the granularity is minute
    or hour; otherwise stream if [end_time - start_time <= 24 h];
    otherwise batch. *)
Definition seven_days : Z := 7 * 86400000000.
Definition one_day : Z := 86400000000.

Definition routes_to_stream (now start_time end_time : Z) (granularity : string) : bool :=
  if (now - seven_days <=? start_time)
     && CacheUtils.str_in granularity ["minute"; "hour"] then true
  else if end_time - start_time <=? one_day then true
  else false.

End RoutingSpec.

(** ** The proximity gate *)

Module OperatorsProps.
Import CacheUtils Operators.

(** The generator answered [message] with status 200 to a call made
    under one of the environments [es]. *)
Definition answered (es : list env) (message : string) : Prop :=
  exists e pl r, In e es
    /\ post_generate e pl = Ok r
    /\ status_code r = 200 /\ json_message r = Ok message.

(** Every memoised message is an answer of the generator. *)
Definition memo_answered (es : list env) (conn : connections) : Prop :=
  forall k m, _message_cache conn !! k = Some m -> answered es m.

Section WithRuntime.
Context {R : Runtime}.

(** The stage applied to the items of a stream in turn, each under its
    own environment; an item on which the stage raises leaves the
    connections as they are. *)
Definition stage (conn : connections) (x : env * (string * event)) : connections :=
  snd (fst (check_proximity_and_generate_message (fst x) conn (snd x))).

Definition run (conn : connections) (xs : list (env * (string * event))) : connections :=
  List.fold_left stage xs conn.

End WithRuntime.

End OperatorsProps.

(** ** The remote cache, continued *)

Module RedisCacheOpsProps.
Import RedisCacheOps.

(** A counter of the server's report that is a number and not negative. *)
Definition nonnegative (v : pyval) : Prop :=
  match number v with
  | Some q => (0 <= q)%Q
  | None => False
  end.

End RedisCacheOpsProps.

(** ** The message generator, continued *)

Module GeneratorExtraProps.
Import CacheUtils GeneratorService.

(** A lowercase hexadecimal digit. *)
Definition is_hex (c : ascii) : bool :=
  in_range 48 57 (code c) || in_range 97 102 (code c).

Section WithRuntime.
Context {R : Runtime}.

(** The message a miss produces: the LLM's answer without surrounding
    white space, or the fallback when the call raises. *)
Definition generated (llm : llm_client) (u : UserParams) (p : PoiParams) : string :=
  match llm (format_prompt (age u) (profession u) (interests u) (name p) (category p)
               (description p)) with
  | Ok content => strip content
  | Raise _ => _get_fallback_message (name p) (category p)
  end.

(** The ttl [cache_message] gives an entry for this POI. *)
Definition entry_ttl (st : state) (p : PoiParams) : Z :=
  if str_in (str_lower (category p)) popular_categories
  then CACHE_TTL st * 2 else CACHE_TTL st.

(** The in-process cache is in use and has nothing to serve under the key
    of this request at the instant [now]: no entry, an expired entry, or
    an empty message. *)
Definition memory_miss (st : state) (u : UserParams) (p : PoiParams) (now : Q) : Prop :=
  CACHE_ENABLED st = true
  /\ exists m, cache st = Some (Memory m)
       /\ truthy (fst (MemoryCache.get m (generate_cache_key u p) now)) = false.

End WithRuntime.

End GeneratorExtraProps.

(** ** The query service, continued *)

Module QueryExtraProps.
Import Cache QueryEngine QueryService RoutingSpec.

(** The routing the code performs on naive datetimes: the stream source
    when the start is less than eight days old and the granularity is
    minute or hour, or when the range is at most one day. *)
Definition stream_routed (now start_time end_time : Z) (granularity : string) : bool :=
  ((now - start_time <? 8 * one_day)
   && CacheUtils.str_in granularity ["minute"; "hour"])
  || (end_time - start_time <=? one_day).

(** Neither bound of the query carries a time zone. *)
Definition naive (q : TimeSeriesQuery) : bool :=
  negb (aware (start_time q)) && negb (aware (end_time q)).

(** The answer built from the source the routing selects; a failure of
    the source reaches the client as a 500. *)
Definition from_source (e : env) (q : TimeSeriesQuery) : result TimeSeriesResponse :=
  let use_stream :=
    stream_routed (clock e) (micros (start_time q)) (micros (end_time q))
      (granularity q) in
  match (if use_stream then stream_rows e q else batch_rows e q) with
  | Ok rows => Ok (mkResponse rows (if use_stream then "stream" else "batch") false)
  | Raise _ => Raise HTTPError
  end.

(** A serialiser for the worked examples, in the place of
    [json.dumps(params, sort_keys=True, default=str)]: it writes the
    entries of a mapping in the order given and a [datetime] as its count
    of microseconds. *)
Fixpoint dumps_example (v : pyval) : string :=
  match v with
  | PNone => "null"
  | PBool b => if b then "true" else "false"
  | PInt z => str_of_int z
  | PFloat q => str_of_int (Qnum q) +:+ "/" +:+ str_of_int (Z.pos (Qden q))
  | PStr s => "'" +:+ s +:+ "'"
  | PBytes b => "'" +:+ b +:+ "'"
  | PDatetime m a => str_of_int m +:+ (if a then "Z" else "")
  | PList l =>
      "[" +:+ (fix go (l : list pyval) : string :=
                 match l with
                 | [] => "]"
                 | x :: l' => dumps_example x +:+ "," +:+ go l'
                 end) l
  | PDict d =>
      "{" +:+ (fix go (d : list (string * pyval)) : string :=
                 match d with
                 | [] => "}"
                 | (k, x) :: d' => "'" +:+ k +:+ "':" +:+ dumps_example x +:+ "," +:+ go d'
                 end) d
  end.

(** The cache is out of service for a request: there is none, or it is a
    Redis cache whose client is missing or whose round trips fail. *)
Definition cache_out (m : QueryCacheManager.t) (e : env) : Prop :=
  match QueryCacheManager.cache m with
  | None => True
  | Some (Redis r) =>
      RedisCache.client r = false
      \/ (redis_fault (probe e) <> None /\ redis_fault (store e) <> None)
  | Some (Memory _) => False
  end.

End QueryExtraProps.

(** ** The data pipeline *)

Module PipelineProps.
Import CacheUtils Operators OperatorsIO BytewaxFlow StreamReplay.

(** The mapping a Kafka message carries: its value when that is a mapping,
    or what the JSON text of a [str] or of UTF-8 [bytes] loads to when
    that is a mapping. *)
Definition carried (loads_str : string -> result pyval) (msg : kafka_msg)
    : option (list (string * pyval)) :=
  let of_text s :=
    match loads_str s with
    | Ok (PDict d) => Some d
    | _ => None
    end in
  match msg with
  | KafkaSourceMessage _ (PDict d) => Some d
  | KafkaSourceMessage _ (PStr s) => of_text s
  | KafkaSourceMessage _ (PBytes b) =>
      match utf8_decode b with
      | Ok s => of_text s
      | Raise _ => None
      end
  | _ => None
  end.

(** The key the pipeline gives an event: [str(event.get("user_id",
    "unknown"))]. *)
Definition key_of (py_str : pyval -> string) (event : list (string * pyval)) : string :=
  py_str (default (PStr "unknown") (dict_get event "user_id")).

(** The rows inserted among the calls made. *)
Definition inserts (calls : list OperatorsIO.effect) : list user_event :=
  omap (fun c => match c with Insert row => Some row | _ => None end) calls.

(** [str] on the values the examples use. *)
Definition str_example (v : pyval) : string :=
  match v with
  | PStr s => s
  | PInt z => str_of_int z
  | PNone => "None"
  | PBool b => if b then "True" else "False"
  | _ => EmptyString
  end.

(** In the place of [datetime.fromisoformat(t).timestamp()] in the
    examples, which write an instant as its count of seconds. *)
Definition timestamp_example (v : pyval) : result Q :=
  match v with
  | PInt z => Ok (inject_Z z)
  | _ => Raise ValueError
  end.

(** A callback that only records the events it is given. *)
Definition record_event (seen : list (list (string * pyval)))
    (event : list (string * pyval)) : result unit * list (list (string * pyval)) :=
  (Ok tt, (seen ++ [event])%list).

End PipelineProps.

(** * Part III: theorems *)

(** ** The builtins on test vectors *)

Example md5_empty : MD5.hexdigest "" = "d41d8cd98f00b204e9800998ecf8427e".
Proof. vm_compute. reflexivity. Qed.

Example md5_abc : MD5.hexdigest "abc" = "900150983cd24fb0d6963f7d28e17f72".
Proof. vm_compute. reflexivity. Qed.

Example md5_two_blocks :
  MD5.hexdigest "xxxxxxxxxxxxxxxxxxxxxxxxxxxxxxxxxxxxxxxxxxxxxxxxxxxxxxxx"
  = "668a72d5ba17f08e62dabcafad6db14b".
Proof. vm_compute. reflexivity. Qed.

Example md5_scenario_key :
  MD5.hexdigest "30-34:ingegnere:cucina,tecnologia:caffè x:bar"
  = "9322095e2cceea6083d934fb4181c290".
Proof. vm_compute. reflexivity. Qed.

Example strip_example : strip "  cucina " = "cucina".
Proof. vm_compute. reflexivity. Qed.

Example split_example : split "," "a,,b" = ["a"; ""; "b"].
Proof. vm_compute. reflexivity. Qed.

Example sorted_example : sorted ["tecnologia"; "cucina"] = ["cucina"; "tecnologia"].
Proof. vm_compute. reflexivity. Qed.

Example str_of_int_example : str_of_int 30 = "30" /\ str_of_int (-5) = "-5" /\ str_of_int 0 = "0".
Proof. vm_compute. auto. Qed.

(** ** Facts about the string builtins *)

Module PyFacts.
Import PyProps.

Lemma append_assoc s1 s2 s3 : (s1 +:+ s2) +:+ s3 = s1 +:+ (s2 +:+ s3).
Proof.
  induction s1 as [| c s1 IH]; [done |].
  change (String c ((s1 +:+ s2) +:+ s3) = String c (s1 +:+ s2 +:+ s3)).
  by f_equal.
Qed.

Lemma append_truthy_r s1 s2 : str_truthy s2 = true -> str_truthy (s1 +:+ s2) = true.
Proof. by destruct s1. Qed.

Lemma str_map_length f s : String.length (str_map f s) = String.length s.
Proof. induction s as [| c s IH]; simpl; [done | by rewrite IH]. Qed.

Lemma str_map_truthy f s : str_truthy (str_map f s) = str_truthy s.
Proof. by destruct s. Qed.

Lemma str_map_idem f s :
  (forall c, f (f c) = f c) -> str_map f (str_map f s) = str_map f s.
Proof. intros Hf. induction s as [| c s IH]; simpl; [done | by rewrite Hf, IH]. Qed.

Lemma rev_app_map f s1 : forall s2,
  String.rev_app (str_map f s1) (str_map f s2) = str_map f (String.rev_app s1 s2).
Proof.
  induction s1 as [| c s1 IH]; intros s2; simpl; [done |].
  apply (IH (String c s2)).
Qed.

Lemma rev_map f s : String.rev (str_map f s) = str_map f (String.rev s).
Proof. apply (rev_app_map f s EmptyString). Qed.

Lemma rev_app_length s1 : forall s2,
  String.length (String.rev_app s1 s2) = (String.length s1 + String.length s2)%nat.
Proof.
  induction s1 as [| c s1 IH]; intros s2; simpl; [done |].
  rewrite IH. simpl. lia.
Qed.

Lemma rev_app_forallb p s1 : forall s2,
  str_forallb p (String.rev_app s1 s2) = str_forallb p s1 && str_forallb p s2.
Proof.
  induction s1 as [| c s1 IH]; intros s2; simpl; [done |].
  rewrite IH. simpl. destruct (p c), (str_forallb p s1); simpl; auto.
Qed.

Lemma rev_forallb p s : str_forallb p (String.rev s) = str_forallb p s.
Proof. unfold String.rev. rewrite rev_app_forallb. simpl. apply andb_true_r. Qed.

(** *** [split] and [join] *)

Lemma split_nonempty sep s : split sep s <> [].
Proof.
  destruct s as [| c s]; simpl; [done |].
  destruct (Ascii.eqb c sep); [done |]. by destruct (split sep s).
Qed.

Lemma split_has_no sep s : has_no sep s = true -> split sep s = [s].
Proof.
  induction s as [| c s IH]; simpl; [done |].
  intros [Hc Hs]%andb_true_iff. apply negb_true_iff in Hc.
  rewrite Hc, (IH Hs). done.
Qed.

Lemma split_app sep s rest :
  has_no sep s = true ->
  split sep (s +:+ String sep rest) = s :: split sep rest.
Proof.
  induction s as [| c s IH]; simpl.
  - intros _. by rewrite Ascii.eqb_refl.
  - intros [Hc Hs]%andb_true_iff. apply negb_true_iff in Hc.
    rewrite Hc, (IH Hs). done.
Qed.

(** Splitting a joined list gives the list back, for items without the
    separator; the empty list comes back as one empty piece. *)
Lemma split_join sep l :
  Forall (fun s => has_no sep s = true) l ->
  split sep (join (String sep EmptyString) l) =
    match l with [] => [EmptyString] | _ => l end.
Proof.
  induction 1 as [| s l Hs Hl IH]; [done |].
  destruct l as [| s' l'].
  - simpl. by apply split_has_no.
  - change (join (String sep EmptyString) (s :: s' :: l'))
      with (s +:+ String sep (join (String sep EmptyString) (s' :: l'))).
    rewrite (split_app _ _ _ Hs), IH. done.
Qed.

Lemma split_map f sep s :
  (forall c, Ascii.eqb (f c) sep = Ascii.eqb c sep) ->
  split sep (str_map f s) = List.map (str_map f) (split sep s).
Proof.
  intros Hf. induction s as [| c s IH]; simpl; [done |].
  rewrite Hf, IH. destruct (Ascii.eqb c sep); [done |].
  pose proof (split_nonempty sep s). by destruct (split sep s).
Qed.

Lemma split_forallb p sep s :
  str_forallb p s = true -> Forall (fun x => str_forallb p x = true) (split sep s).
Proof.
  induction s as [| c s IH]; simpl; [by repeat constructor |].
  intros [Hc Hs]%andb_true_iff. specialize (IH Hs).
  destruct (Ascii.eqb c sep); [by constructor |].
  destruct (split sep s) as [| x xs]; [by repeat constructor; simpl; rewrite Hc |].
  inversion IH; subst. constructor; [| done]. simpl. by rewrite Hc.
Qed.

(** *** [strip] *)

Lemma drop_prefix_map f p : forall s,
  str_Forall (fixed_by f) p ->
  drop_prefix p (str_map f s) = option_map (str_map f) (drop_prefix p s).
Proof.
  induction p as [| a p IH]; intros s Hp; [done |].
  destruct Hp as [Ha Hp]. destruct s as [| c s]; simpl; [done |].
  rewrite Ha. destruct (Ascii.eqb a c); [by apply IH | done].
Qed.

Lemma drop_first_map f pats s :
  Forall (str_Forall (fixed_by f)) pats ->
  drop_first pats (str_map f s) = option_map (str_map f) (drop_first pats s).
Proof.
  induction 1 as [| p pats Hp Hps IH]; simpl; [done |].
  rewrite (drop_prefix_map f p s Hp).
  destruct (drop_prefix p s); [done | exact IH].
Qed.

Lemma lstrip_go_map f pats n : forall s,
  Forall (str_Forall (fixed_by f)) pats ->
  lstrip_go pats n (str_map f s) = str_map f (lstrip_go pats n s).
Proof.
  induction n as [| n IH]; intros s Hp; simpl; [done |].
  rewrite (drop_first_map f pats s Hp).
  destruct (drop_first pats s); simpl; [by apply IH | done].
Qed.

Lemma drop_prefix_forallb q p : forall s r,
  drop_prefix p s = Some r -> str_forallb q s = true -> str_forallb q r = true.
Proof.
  induction p as [| a p IH]; intros s r; simpl.
  - by intros [= ->].
  - destruct s as [| c s]; [done |].
    destruct (Ascii.eqb a c); [| done].
    intros Hd [_ Hs]%andb_true_iff. by apply (IH s r).
Qed.

Lemma drop_first_forallb q pats s r :
  drop_first pats s = Some r -> str_forallb q s = true -> str_forallb q r = true.
Proof.
  induction pats as [| p pats IH]; simpl; [done |].
  destruct (drop_prefix p s) eqn:Hd; [| exact IH].
  intros [= <-]. by apply (drop_prefix_forallb q p s).
Qed.

Lemma lstrip_go_forallb q pats n : forall s,
  str_forallb q s = true -> str_forallb q (lstrip_go pats n s) = true.
Proof.
  induction n as [| n IH]; intros s Hs; simpl; [done |].
  destruct (drop_first pats s) eqn:Hd; [| done].
  apply IH. by apply (drop_first_forallb q pats s).
Qed.

Lemma strip_forallb q s : str_forallb q s = true -> str_forallb q (strip s) = true.
Proof.
  intros Hs. unfold strip, rstrip, lstrip.
  rewrite rev_forallb. apply lstrip_go_forallb.
  rewrite rev_forallb. by apply lstrip_go_forallb.
Qed.

Lemma strip_map f s :
  Forall (str_Forall (fixed_by f)) whitespace ->
  Forall (str_Forall (fixed_by f)) (List.map String.rev whitespace) ->
  strip (str_map f s) = str_map f (strip s).
Proof.
  intros H1 H2. unfold strip, rstrip, lstrip.
  rewrite !str_map_length, (lstrip_go_map f _ _ s H1).
  rewrite !str_map_length, rev_map, (lstrip_go_map f _ _ _ H2).
  by rewrite rev_map.
Qed.

(** *** [lower] on ASCII *)

Lemma in_all_bytes c : In c all_bytes.
Proof.
  unfold all_bytes. rewrite <- (ascii_nat_embedding c).
  apply in_map, in_seq. pose proof (nat_ascii_bounded c). lia.
Qed.

Lemma fixed_by_lower_spec a : fixed_by_lower a = true -> fixed_by lower_byte a.
Proof.
  unfold fixed_by_lower. rewrite forallb_forall. intros H c.
  apply eqb_prop, H, in_all_bytes.
Qed.

Lemma str_Forall_forallb (P : ascii -> Prop) p s :
  (forall c, p c = true -> P c) -> str_forallb p s = true -> str_Forall P s.
Proof.
  intros Hp. induction s as [| c s IH]; simpl; [done |].
  intros [Hc Hs]%andb_true_iff. auto.
Qed.

Lemma whitespace_fixed_by_lower :
  Forall (str_Forall (fixed_by lower_byte)) whitespace
  /\ Forall (str_Forall (fixed_by lower_byte)) (List.map String.rev whitespace).
Proof.
  split; apply List.Forall_forall; intros p Hp;
    apply (str_Forall_forallb _ fixed_by_lower p fixed_by_lower_spec);
    revert p Hp; apply List.forallb_forall; vm_compute; reflexivity.
Qed.

Lemma lower_byte_idem c : lower_byte (lower_byte c) = lower_byte c.
Proof.
  revert c. assert (H : forallb (fun c => Ascii.eqb (lower_byte (lower_byte c)) (lower_byte c)) all_bytes = true)
    by (vm_compute; reflexivity).
  intros c. apply Ascii.eqb_eq. revert c.
  intros c. exact (proj1 (forallb_forall _ _) H c (in_all_bytes c)).
Qed.

Lemma lower_byte_comma c : Ascii.eqb (lower_byte c) "," = Ascii.eqb c ",".
Proof.
  assert (H : forallb (fun c => Bool.eqb (Ascii.eqb (lower_byte c) ",") (Ascii.eqb c ",")) all_bytes = true)
    by (vm_compute; reflexivity).
  apply eqb_prop. exact (proj1 (forallb_forall _ _) H c (in_all_bytes c)).
Qed.

Lemma strip_ascii_lower s : strip (ascii_lower s) = ascii_lower (strip s).
Proof.
  destruct whitespace_fixed_by_lower as [H1 H2]. by apply strip_map.
Qed.

Lemma split_ascii_lower s :
  split "," (ascii_lower s) = List.map ascii_lower (split "," s).
Proof. apply split_map, lower_byte_comma. Qed.

(** *** [sorted] *)

Lemma sorted_permutation l1 l2 : l1 ≡ₚ l2 -> sorted l1 = sorted l2.
Proof.
  intros Hp. unfold sorted.
  apply (Sorted_unique String.le).
  - apply Sorted_merge_sort. apply _.
  - apply Sorted_merge_sort. apply _.
  - by rewrite !merge_sort_Permutation.
Qed.

Lemma filter_Permutation {A} (p : A -> bool) l1 l2 :
  l1 ≡ₚ l2 -> List.filter p l1 ≡ₚ List.filter p l2.
Proof.
  induction 1 as [| x l1 l2 _ IH | x y l | l1 l2 l3 _ IH1 _ IH2]; simpl.
  - done.
  - destruct (p x); [by constructor | done].
  - destruct (p x), (p y); try done. apply Permutation_swap.
  - by etrans.
Qed.

Lemma filter_map_comm {A B} (p : B -> bool) (f : A -> B) l :
  List.filter p (List.map f l) = List.map f (List.filter (fun x => p (f x)) l).
Proof.
  induction l as [| x l IH]; simpl; [done |].
  destruct (p (f x)); simpl; by rewrite IH.
Qed.

Lemma filter_ext_Forall {A} (p q : A -> bool) l :
  Forall (fun x => p x = q x) l -> List.filter p l = List.filter q l.
Proof.
  induction 1 as [| x l Hx Hl IH]; simpl; [done |]. by rewrite Hx, IH.
Qed.

Lemma map_ext_Forall' {A B} (f g : A -> B) l :
  Forall (fun x => f x = g x) l -> List.map f l = List.map g l.
Proof.
  induction 1 as [| x l Hx Hl IH]; simpl; [done |]. by rewrite Hx, IH.
Qed.

End PyFacts.

(** ** Properties of the in-process cache *)

Module MemoryCacheFacts.
Import MemoryCache MemoryCacheProps.

Lemma expired_spec now e : expired now (Some e) = true <-> (e < now)%Q.
Proof.
  unfold expired. rewrite negb_true_iff.
  destruct (Qle_bool now e) eqn:E.
  - apply Qle_bool_iff in E. split; [discriminate | intros H; exfalso; lra].
  - split; [intros _ | reflexivity].
    destruct (Qlt_le_dec e now) as [H | H]; [exact H |].
    apply Qle_bool_iff in H. congruence.
Qed.

Lemma expired_false now e : expired now (Some e) = false <-> (now <= e)%Q.
Proof.
  unfold expired. rewrite negb_false_iff. apply Qle_bool_iff.
Qed.

Lemma get_other self k k' now :
  k <> k' -> cache (snd (get self k' now)) !! k = cache self !! k.
Proof.
  intros Hne. unfold get.
  destruct (cache self !! k') as [[v e] |]; [| reflexivity].
  destruct (expired now e); [| reflexivity].
  simpl. apply lookup_delete_ne. congruence.
Qed.

Lemma exists_other self k k' now :
  k <> k' -> cache (snd (exists_ self k' now)) !! k = cache self !! k.
Proof.
  intros Hne. unfold exists_.
  destruct (cache self !! k') as [[v e] |]; [| reflexivity].
  destruct (expired now e); [| reflexivity].
  simpl. apply lookup_delete_ne. congruence.
Qed.

(** A call that is no [set] or [delete] on [k] leaves the entry of [k] as
    it is, or removes it because it has expired by the time of the call. *)
Lemma run_call_entry self c k :
  ~ writes k c ->
  cache (run_call self c) !! k = cache self !! k
  \/ (cache (run_call self c) !! k = None
      /\ exists v e, cache self !! k = Some (v, Some e) /\ (e < fst c)%Q).
Proof.
  destruct c as [now c]. unfold writes. simpl. intros Hw.
  destruct c as [k' | k' v' ttl' | k' | k' |]; simpl.
  - destruct (decide (k = k')) as [<- | Hne]; [| left; by apply get_other].
    unfold get. destruct (cache self !! k) as [[v e] |] eqn:Hk; [| left; exact Hk].
    destruct e as [e |]; simpl; [| left; exact Hk].
    destruct (negb (Qle_bool now e)) eqn:He; [| left; exact Hk].
    right. simpl. rewrite lookup_delete_eq. split; [done |].
    exists v, e. split; [done |]. by apply expired_spec.
  - left. unfold set. simpl. apply lookup_insert_ne. congruence.
  - left. unfold delete. destruct (cache self !! k'); [| done].
    simpl. apply lookup_delete_ne. congruence.
  - destruct (decide (k = k')) as [<- | Hne]; [| left; by apply exists_other].
    unfold exists_. destruct (cache self !! k) as [[v e] |] eqn:Hk; [| left; exact Hk].
    destruct e as [e |]; simpl; [| left; exact Hk].
    destruct (negb (Qle_bool now e)) eqn:He; [| left; exact Hk].
    right. simpl. rewrite lookup_delete_eq. split; [done |].
    exists v, e. split; [done |]. by apply expired_spec.
  - unfold cleanup. simpl.
    destruct (cache self !! k) as [[v e] |] eqn:Hk.
    + destruct (expired now e) eqn:He.
      * right. split.
        -- apply map_lookup_filter_None. right. intros x Hx. simpl.
           rewrite Hk in Hx. injection Hx as <-. simpl. congruence.
        -- destruct e as [e |]; [| discriminate].
           exists v, e. split; [done |]. by apply expired_spec.
      * left. apply map_lookup_filter_Some. split; [done | exact He].
    + left. apply map_lookup_filter_None. by left.
Qed.

Lemma run_absent cs : forall self k,
  Forall (fun c => ~ writes k c) cs ->
  cache self !! k = None ->
  cache (run self cs) !! k = None.
Proof.
  induction cs as [| c cs IH]; intros self k Hw Hk; [done |].
  inversion Hw as [| ? ? Hc Hcs]; subst. simpl.
  apply IH; [done |].
  destruct (run_call_entry self c k Hc) as [Heq | [Hn _]]; [by rewrite Heq | done].
Qed.

(** While no call writes [k], its entry is the one last stored or gone. *)
Lemma run_entry cs : forall self k v e,
  Forall (fun c => ~ writes k c) cs ->
  cache self !! k = Some (v, Some e) ->
  cache (run self cs) !! k = Some (v, Some e) \/ cache (run self cs) !! k = None.
Proof.
  induction cs as [| c cs IH]; intros self k v e Hw Hk; [by left |].
  inversion Hw as [| ? ? Hc Hcs]; subst. simpl.
  destruct (run_call_entry self c k Hc) as [Heq | [Hnone _]].
  - apply (IH _ k v e Hcs). by rewrite Heq.
  - right. by apply run_absent.
Qed.

(** Calls made no later than the expiry instant keep the entry. *)
Lemma run_entry_live cs : forall self k v e,
  Forall (fun c => ~ writes k c) cs ->
  Forall (fun c => (fst c <= e)%Q) cs ->
  cache self !! k = Some (v, Some e) ->
  cache (run self cs) !! k = Some (v, Some e).
Proof.
  induction cs as [| c cs IH]; intros self k v e Hw Ht Hk; [done |].
  inversion Hw as [| ? ? Hc Hcs]; subst.
  inversion Ht as [| ? ? Htc Htcs]; subst. simpl.
  apply IH; [done | done |].
  destruct (run_call_entry self c k Hc) as [Heq | [_ (v' & e' & Hk' & Hlt)]].
  - by rewrite Heq.
  - rewrite Hk in Hk'. injection Hk' as <- <-. exfalso. lra.
Qed.

Lemma set_entry self k v ttl t :
  cache (snd (set self k v (Some ttl) t)) !! k = Some (v, Some (t + inject_Z ttl)%Q).
Proof. unfold set. simpl. apply lookup_insert_eq. Qed.



End MemoryCacheFacts.

(** ** Properties of the remote cache *)

Module RedisCacheFacts.
Import RedisCache RedisCacheProps.

Section WithRuntime.
Context {R : Runtime}.

Lemma get_total self srv f key now : exists v, get self srv f key now = Ok v.
Proof.
  unfold get. destruct (negb (client self)); [by eexists |].
  destruct (bind _ _); simpl; by eexists.
Qed.

Lemma set_total self srv f key value ttl now :
  exists b, fst (set self srv f key value ttl now) = Ok b.
Proof.
  unfold set. destruct (negb (client self)); [by eexists |].
  destruct (payload value); [| by eexists].
  destruct (client_setex _ _ _ _ _ _) as [[b | e] srv']; simpl; by eexists.
Qed.

(** C9.  With the backend unavailable (no connected client, or the
    backend operation raises), [get] returns [None] and [set] returns
    [False] and stores nothing; and whatever the backend does, neither
    operation lets an exception reach the caller. *)
Theorem redis_degrades (self : t) (srv : server) (f : fault) (key : string)
    (value : pyval) (ttl : option Z) (now : Q) :
  (~ raises (get self srv f key now)
   /\ ~ raises (fst (set self srv f key value ttl now)))
  /\ (unavailable self f ->
      get self srv f key now = Ok PNone
      /\ set self srv f key value ttl now = (Ok false, srv)).
Proof.
  split.
  - split; intros [e He].
    + destruct (get_total self srv f key now) as [v Hv]. congruence.
    + destruct (set_total self srv f key value ttl now) as [b Hb]. congruence.
  - intros [Hc | [e ->]].
    + unfold get, set. by rewrite Hc.
    + unfold get, set. destruct (negb (client self)); [done |].
      split; [done |]. by destruct (payload value).
Qed.

(** What [set] hands to the server and what [get] makes of it. *)
Lemma round_trips_payload v :
  round_trips v ->
  exists b, payload v = Ok b /\ str_truthy b = true
    /\ try_except_only is_JSONDecodeError (json_loads b)
         (fun _ => bind (utf8_decode b) (fun s => Ok (PStr s))) = Ok v.
Proof.
  unfold round_trips, payload.
  destruct v; simpl;
    try (intros (txt & -> & Ht & Hl); exists txt; simpl; rewrite Hl; by auto).
  - intros (Ht & Hv & Hl). exists s. unfold utf8_encode.
    rewrite Hl. simpl. unfold utf8_decode. rewrite Hv. by auto.
  - intros [].
Qed.


(** A string that is a JSON text comes back as the value it denotes. *)
Lemma redis_json_text_read_back (self : t) (srv : server) (key txt : string)
    (v : pyval) (t t' : Q) :
  client self = true ->
  str_truthy txt = true ->
  json_loads txt = Ok v ->
  (t' < t + inject_Z 300)%Q ->
  get self (snd (set self srv None key (PStr txt) (Some 300) t)) None key t' = Ok v.
Proof.
  intros Hc Ht Hl Hlt. unfold set, get. rewrite Hc. simpl.
  unfold client_get. rewrite lookup_insert_eq.
  destruct (Qle_bool (t + inject_Z 300) t') eqn:Hq.
  - apply Qle_bool_iff in Hq. lra.
  - unfold utf8_encode. rewrite Ht. by rewrite Hl.
Qed.

End WithRuntime.

#[local] Existing Instance RefRuntime.runtime.

Lemma redis_degrades_witness :
  get (mk false 86400) ∅ None "k" 0%Q = Ok PNone
  /\ set (mk false 86400) ∅ None "k" (PStr "v") None 0%Q = (Ok false, ∅).
Proof.
  apply (redis_degrades (mk false 86400) ∅ None "k" (PStr "v") None 0%Q).
  left. reflexivity.
Defined.



End RedisCacheFacts.

(** ** The cache fingerprint *)

Module Fingerprint.
Import CacheUtils PyProps PyFacts FingerprintSpec.

Section WithRuntime.
Context {R : Runtime}.

Lemma key_interests u p i' :
  sorted (interests_items i') = sorted (interests_items (interests u)) ->
  generate_cache_key (mkUser (age u) (profession u) i') p = generate_cache_key u p.
Proof.
  unfold generate_cache_key, interests_items. simpl. by intros ->.
Qed.

Lemma Qfloor_div5 a : Qfloor (inject_Z a / 5) = a / 5.
Proof.
  unfold Qfloor, Qdiv, Qmult, Qinv, inject_Z. simpl. by rewrite Z.mul_1_r.
Qed.

Lemma interests_items_join l :
  Forall (fun s => has_no "," s = true) l ->
  interests_items (join "," l) =
    List.map (fun i => str_lower (strip i))
      (List.filter (fun i => str_truthy (strip i)) l).
Proof.
  intros Hl. unfold interests_items. rewrite (split_join "," l Hl).
  by destruct l.
Qed.

Context {L : LowerLaws R}.

Lemma normalize_interests_items i :
  normalize_interests i = join "," (sorted (interests_items i)).
Proof.
  unfold normalize_interests, interests_items.
  rewrite List.map_map, filter_map_comm. do 3 f_equal.
  apply filter_ext_Forall, List.Forall_forall. intros x _. apply lower_nonempty.
Qed.

(** On ASCII text the items depend on the lowercased text only. *)
Lemma interests_items_ascii i :
  is_ascii i = true ->
  interests_items i =
    List.map strip (List.filter (fun x => str_truthy (strip x)) (split "," (ascii_lower i))).
Proof.
  intros Hi. unfold interests_items.
  rewrite split_ascii_lower, filter_map_comm, List.map_map.
  pose proof (split_forallb is_ascii_byte "," i Hi) as Hp.
  rewrite (filter_ext_Forall (fun x => str_truthy (strip (ascii_lower x)))
             (fun x => str_truthy (strip x))).
  - apply map_ext_Forall'.
    apply List.Forall_forall. intros x Hx.
    rewrite strip_ascii_lower. apply lower_ascii.
    apply strip_forallb.
    apply List.filter_In in Hx as [Hx _].
    exact (proj1 (List.Forall_forall _ _) Hp x Hx).
  - apply List.Forall_forall. intros x _.
    rewrite strip_ascii_lower. apply str_map_truthy.
Qed.

Lemma recased_lower s1 : forall s2, recased s1 s2 -> ascii_lower s1 = ascii_lower s2.
Proof.
  induction s1 as [| a s1 IH]; intros [| b s2]; simpl; try done.
  intros [Hab Hs]. unfold ascii_lower in *. simpl. by rewrite Hab, (IH s2 Hs).
Qed.


End WithRuntime.

Lemma ref_lower_laws : LowerLaws RefRuntime.runtime.
Proof.
  split; simpl.
  - reflexivity.
  - intros s. apply str_map_truthy.
Qed.


End Fingerprint.

(** ** Properties of the message generator's cache use *)

Module GeneratorFacts.
Import CacheUtils GeneratorService PyFacts GeneratorProps.

Lemma str_in_popular c : str_in c popular_categories = true <-> is_popular c.
Proof.
  unfold str_in, popular_categories, is_popular. simpl.
  rewrite !orb_true_iff, !String.eqb_eq. intuition congruence.
Qed.

Section WithRuntime.
Context {R : Runtime}.

(** *** The adaptive TTL *)

Lemma cache_message_memory st e u p msg m :
  cache st = Some (Memory m) -> CACHE_ENABLED st = true ->
  cache_message st e u p msg =
    (Ok true,
     with_cache st
       (Some (Memory (MemoryCache.with_cache m
          (<[generate_cache_key u p :=
               (PStr msg,
                Some (now e + inject_Z
                        (if str_in (str_lower (category p)) popular_categories
                         then CACHE_TTL st * 2 else CACHE_TTL st))%Q)]>
             (MemoryCache.cache m)))))
       (redis st)).
Proof.
  intros Hc He. unfold cache_message. rewrite Hc, He. reflexivity.
Qed.

(** C7.  When [cache_message] stores a message, the entry expires
    [2 * CACHE_TTL] seconds later if the lowercased category is one of
    ristorante, bar, abbigliamento, supermercato, and [CACHE_TTL] seconds
    later for every other category; with the in-process cache the message
    is always stored. *)
Theorem cache_message_ttl (st : state) (e : env) (u : UserParams)
    (p : PoiParams) (msg : string) :
  let key := generate_cache_key u p in
  let st' := snd (cache_message st e u p msg) in
  ((exists m, cache st = Some (Memory m)) -> CACHE_ENABLED st = true ->
   fst (cache_message st e u p msg) = Ok true)
  /\ (fst (cache_message st e u p msg) = Ok true ->
      exists expires, stored st' key msg expires
        /\ (is_popular (str_lower (category p)) ->
            expires = (now e + inject_Z (CACHE_TTL st * 2))%Q)
        /\ (~ is_popular (str_lower (category p)) ->
            expires = (now e + inject_Z (CACHE_TTL st))%Q)).
Proof.
  intros key st'. split.
  - intros [m Hm] He. by rewrite (cache_message_memory st e u p msg m Hm He).
  - subst st'. unfold cache_message, stored.
    destruct (cache st) as [[r | m] |] eqn:Hc; [| | done].
    + destruct (CACHE_ENABLED st); [| done].
      fold key. cbv beta zeta.
      remember (if str_in (str_lower (category p)) popular_categories
                then CACHE_TTL st * 2 else CACHE_TTL st) as ttl eqn:Httl.
      unfold backend_set, RedisCache.set.
      destruct (negb (RedisCache.client r)); [done |].
      unfold RedisCache.payload, RedisCache.client_setex. simpl.
      destruct (redis_fault e); [done |].
      destruct (ttl <=? 0); [done |]. simpl. intros _.
      exists (now e + inject_Z ttl)%Q. rewrite lookup_insert_eq. split; [done |].
      subst ttl. split; intros Hp.
      * apply str_in_popular in Hp. by rewrite Hp.
      * destruct (str_in _ _) eqn:Hin; [| done]. by apply str_in_popular in Hin.
    + destruct (CACHE_ENABLED st); [| done].
      fold key. cbv beta zeta.
      remember (if str_in (str_lower (category p)) popular_categories
                then CACHE_TTL st * 2 else CACHE_TTL st) as ttl eqn:Httl.
      simpl. intros _.
      exists (now e + inject_Z ttl)%Q. rewrite lookup_insert_eq. split; [done |].
      subst ttl. split; intros Hp.
      * apply str_in_popular in Hp. by rewrite Hp.
      * destruct (str_in _ _) eqn:Hin; [| done]. by apply str_in_popular in Hin.
Qed.

End WithRuntime.

#[local] Existing Instance RefRuntime.runtime.

Lemma cache_message_ttl_witness :
  let st := init true 86400 false ∅ in
  let e := mkEnv 1000%Q None in
  let u := mkUser 30 "Ingegnere" "tecnologia, cucina" in
  (exists x, stored (snd (cache_message st e u (mkPoi "Da Mario" "Ristorante" "") "Ciao"))
               (generate_cache_key u (mkPoi "Da Mario" "Ristorante" "")) "Ciao" x
             /\ x = (1000 + inject_Z (86400 * 2))%Q)
  /\ (exists x, stored (snd (cache_message st e u (mkPoi "Libreria" "libreria" "") "Ciao"))
               (generate_cache_key u (mkPoi "Libreria" "libreria" "")) "Ciao" x
             /\ x = (1000 + inject_Z 86400)%Q).
Proof.
  intros st e u. split.
  - destruct (cache_message_ttl st e u (mkPoi "Da Mario" "Ristorante" "") "Ciao")
      as [_ H].
    destruct H as (x & Hs & Hp & _); [vm_compute; reflexivity |].
    exists x. split; [exact Hs |]. apply Hp. vm_compute. tauto.
  - destruct (cache_message_ttl st e u (mkPoi "Libreria" "libreria" "") "Ciao")
      as [_ H].
    destruct H as (x & Hs & _ & Hn); [vm_compute; reflexivity |].
    exists x. split; [exact Hs |]. apply Hn. vm_compute.
    intros [H | [H | [H | H]]]; discriminate.
Defined.

(** *** The hit and miss counters *)

Section Counters.
Context {R : Runtime}.

Lemma backend_get_ok b srv e key :
  exists v b', backend_get b srv e key = (Ok v, b').
Proof.
  destruct b as [r | m]; simpl.
  - destruct (RedisCacheFacts.get_total r srv (redis_fault e) key (now e)) as [v Hv].
    rewrite Hv. by eauto.
  - destruct (MemoryCache.get m key (now e)) as [v m']. by eauto.
Qed.

Lemma get_cached_message_counts st e u p :
  let st' := snd (get_cached_message st e u p) in
  CACHE_ENABLED st' = CACHE_ENABLED st
  /\ (cache st' <> None <-> cache st <> None)
  /\ (if CACHE_ENABLED st && bool_decide (cache st <> None)
      then counted (cache_stats st) (cache_stats st')
      else st' = st).
Proof.
  unfold get_cached_message.
  destruct (cache st) as [b |] eqn:Hc.
  - destruct (CACHE_ENABLED st) eqn:He; simpl.
    + destruct (backend_get_ok b (redis st) e (generate_cache_key u p))
        as (v & b' & ->). simpl. rewrite He.
      split; [done |]. split; [done |].
      unfold counted. destruct (truthy v); simpl; split; auto; lia.
    + rewrite Hc, He. done.
  - simpl. rewrite Hc, andb_false_r. done.
Qed.

Lemma cache_message_counts st e u p msg :
  let st' := snd (cache_message st e u p msg) in
  CACHE_ENABLED st' = CACHE_ENABLED st
  /\ (cache st' <> None <-> cache st <> None)
  /\ cache_stats st' = cache_stats st.
Proof.
  unfold cache_message.
  destruct (cache st) as [b |] eqn:Hc; [| simpl; by rewrite ?Hc].
  destruct (CACHE_ENABLED st) eqn:He; simpl; [| by rewrite ?Hc, ?He].
  destruct (backend_set _ _ _ _ _ _) as [[res b'] srv']. simpl. by rewrite ?He.
Qed.

Lemma consistent_init enabled ttl up srv : consistent enabled (init enabled ttl up srv).
Proof.
  unfold consistent, init. simpl. repeat split; try lia.
  - intros ->. by destruct up.
  - destruct enabled; [done | by intros []].
Qed.

Lemma consistent_get_cached enabled st e u p :
  consistent enabled st -> consistent enabled (snd (get_cached_message st e u p)).
Proof.
  intros (Hs & Hh & Hm & He & Hc).
  destruct (get_cached_message_counts st e u p) as (He' & Hc' & Hn).
  destruct (CACHE_ENABLED st && bool_decide (cache st <> None)).
  - destruct Hn as (Ht & Hcase). unfold consistent.
    rewrite He', Hc'. repeat split; try tauto; try lia.
  - by rewrite Hn.
Qed.

Lemma consistent_cache_message enabled st e u p msg :
  consistent enabled st -> consistent enabled (snd (cache_message st e u p msg)).
Proof.
  intros (Hs & Hh & Hm & He & Hc).
  destruct (cache_message_counts st e u p msg) as (He' & Hc' & Hn).
  unfold consistent. rewrite He', Hc', Hn. tauto.
Qed.

Lemma consistent_step enabled st r :
  consistent enabled st -> consistent enabled (step st r).
Proof.
  intros H. destruct r as [e [u p | u p m | llm e' u p |]]; unfold step; simpl.
  - by apply consistent_get_cached.
  - by apply consistent_cache_message.
  - unfold generate_message.
    pose proof (consistent_get_cached enabled st e u p H) as H1.
    destruct (get_cached_message st e u p) as [[v | x] st1]; simpl in *; [| done].
    destruct (truthy v); [done |].
    destruct (_call_llm llm u p) as [g | x]; [| done].
    pose proof (consistent_cache_message enabled st1 e' u p g H1) as H2.
    destruct (cache_message st1 e' u p g) as [[b | x] st2]; done.
  - done.
Qed.

Lemma consistent_run enabled rs : forall st,
  consistent enabled st -> consistent enabled (run st rs).
Proof.
  induction rs as [| r rs IH]; intros st H; [done |].
  simpl. apply IH. by apply consistent_step.
Qed.

Lemma hit_rate_bounds h t :
  0 <= h <= t -> 0 < t -> (0 <= inject_Z h / inject_Z t <= 1)%Q.
Proof.
  intros Hh Ht. destruct t as [| t | t]; try lia.
  unfold Qdiv, Qmult, Qinv, Qle, inject_Z. simpl. lia.
Qed.

(** C10, as the code has it.  In every state the module reaches from its
    start, [hits + misses = total]; the counters start at zero; a call of
    [get_cached_message] counts one lookup, as a hit or as a miss, when the
    cache is enabled, and changes nothing when it is disabled; and the
    reported hit rate is [hits / total], within [0, 1], and [0] when
    [total] is [0]. *)
Theorem cache_stats_invariant (enabled : bool) (ttl : Z) (redis_up : bool)
    (srv : RedisCache.server) (rs : list (env * request)) :
  let st := run (init enabled ttl redis_up srv) rs in
  let s := cache_stats st in
  cache_stats (init enabled ttl redis_up srv) = mkStats 0 0 0
  /\ hits s + misses s = total s
  /\ (forall e u p,
        let st' := snd (get_cached_message st e u p) in
        if enabled then counted s (cache_stats st') else st' = st)
  /\ (forall rep, get_cache_stats st = Some rep ->
        (0 <= r_hit_rate rep <= 1)%Q
        /\ (r_total rep = 0 -> r_hit_rate rep = 0%Q)
        /\ (0 < r_total rep ->
            r_hit_rate rep = (inject_Z (hits s) / inject_Z (total s))%Q)).
Proof.
  intros st s.
  pose proof (consistent_run enabled rs _ (consistent_init enabled ttl redis_up srv))
    as (Hs & Hh & Hm & He & Hc). fold st in Hs, Hh, Hm, He, Hc. fold s in Hs, Hh, Hm.
  split; [done |]. split; [done |]. split.
  - intros e u p st'.
    destruct (get_cached_message_counts st e u p) as (_ & _ & Hn).
    rewrite He in Hn. destruct enabled; simpl in Hn.
    + rewrite bool_decide_eq_true_2 in Hn by by apply Hc. exact Hn.
    + exact Hn.
  - intros rep. unfold get_cache_stats. destruct (cache st); [| done].
    intros [= <-]. simpl. fold s.
    destruct (0 <? total s) eqn:Ht.
    + apply Z.ltb_lt in Ht. split; [apply hit_rate_bounds; lia |].
      split; [lia | done].
    + apply Z.ltb_ge in Ht. split; [split; discriminate |]. split; [done | lia].
Qed.

End Counters.

(** *** The fallback message *)

Section Fallback.
Context {R : Runtime}.

Arguments str_in : simpl never.
Arguments MemoryCache.expired : simpl never.

Lemma fallback_truthy shop category :
  str_truthy (_get_fallback_message shop category) = true.
Proof.
  unfold _get_fallback_message, templates_get.
  repeat match goal with
         | |- context [String.eqb ?a ?b] => destruct (String.eqb a b)
         end;
    repeat (apply append_truthy_r); reflexivity.
Qed.

Lemma call_llm_down u p x :
  _call_llm (fun _ => Raise x) u p
  = Ok (_get_fallback_message (name p) (category p)).
Proof. reflexivity. Qed.

(** C1 fails on the code.  With the in-process cache enabled and empty
    and the LLM call raising, [generate_message] returns the fallback
    message with [cached = False], and stores it: a lookup for the same
    fingerprint a minute later hits, and the next request is answered with
    the fallback as a cache hit whatever the LLM would say then. *)
Theorem fallback_message_is_cached (u : UserParams) (p : PoiParams) :
  let st0 := init true 86400 false ∅ in
  let down : llm_client := fun _ => Raise LLMError in
  let fb := _get_fallback_message (name p) (category p) in
  let r1 := generate_message down st0 (mkEnv 0%Q None) (mkEnv 2%Q None) u p in
  fst r1 = Ok (PStr fb, false)
  /\ fst (get_cached_message (snd r1) (mkEnv 60%Q None) u p) = Ok (PStr fb)
  /\ forall llm : llm_client,
       fst (generate_message llm (snd r1) (mkEnv 60%Q None) (mkEnv 62%Q None) u p)
       = Ok (PStr fb, true).
Proof.
  intros st0 down fb r1.
  assert (Hr1 : r1 =
    (Ok (PStr fb, false),
     mkState true 86400
       (Some (Memory (MemoryCache.mk
          (<[generate_cache_key u p :=
               (PStr fb,
                Some (2 + inject_Z
                        (if str_in (str_lower (category p)) popular_categories
                         then 86400 * 2 else 86400))%Q)]> ∅)
          (Some 86400))))
       (mkStats 0 1 1) ∅)).
  { subst r1. unfold generate_message, get_cached_message. simpl.
    unfold MemoryCache.get. simpl. rewrite lookup_empty. simpl.
    reflexivity. }
  rewrite Hr1. simpl. split; [done |].
  assert (Hget : forall st, st = snd r1 ->
            get_cached_message st (mkEnv 60%Q None) u p
            = (Ok (PStr fb), with_stats st (mkStats 1 1 2))).
  { intros st ->. rewrite Hr1. unfold get_cached_message. simpl.
    unfold MemoryCache.get. simpl. rewrite lookup_insert_eq.
    assert (He : MemoryCache.expired 60
                   (Some (2 + inject_Z
                            (if str_in (str_lower (category p)) popular_categories
                             then 86400 * 2 else 86400))%Q) = false)
      by (destruct (str_in _ _); vm_compute; reflexivity).
    rewrite He. simpl. unfold fb. rewrite fallback_truthy. reflexivity. }
  rewrite Hr1 in Hget. simpl in Hget. split.
  - by rewrite (Hget _ eq_refl).
  - intros llm. unfold generate_message. rewrite (Hget _ eq_refl).
    simpl. unfold fb. by rewrite fallback_truthy.
Qed.

End Fallback.

#[local] Existing Instance RefRuntime.runtime.

Lemma cache_stats_invariant_witness :
  let st := run (init true 86400 false ∅)
              [(mkEnv 0%Q None,
                RGenerate (fun _ => Ok "Ciao!") (mkEnv 2%Q None)
                  (mkUser 30 "Ingegnere" "cucina") (mkPoi "Da Mario" "ristorante" ""));
               (mkEnv 5%Q None,
                RGetCached (mkUser 31 "ingegnere" "Cucina")
                  (mkPoi "da mario" "Ristorante" ""))] in
  hits (cache_stats st) + misses (cache_stats st) = total (cache_stats st)
  /\ exists rep, get_cache_stats st = Some rep /\ (0 <= r_hit_rate rep <= 1)%Q.
Proof.
  intros st.
  destruct (cache_stats_invariant true 86400 false ∅
              [(mkEnv 0%Q None,
                RGenerate (fun _ => Ok "Ciao!") (mkEnv 2%Q None)
                  (mkUser 30 "Ingegnere" "cucina") (mkPoi "Da Mario" "ristorante" ""));
               (mkEnv 5%Q None,
                RGetCached (mkUser 31 "ingegnere" "Cucina")
                  (mkPoi "da mario" "Ristorante" ""))])
    as (_ & Hs & _ & Hrep).
  split; [exact Hs |].
  exists (mkReport true 1 1 2 (inject_Z 1 / inject_Z 2)%Q).
  assert (Hg : get_cache_stats st = Some (mkReport true 1 1 2 (inject_Z 1 / inject_Z 2)%Q))
    by (vm_compute; reflexivity).
  split; [exact Hg |]. exact (proj1 (Hrep _ Hg)).
Defined.

Example cache_stats_run :
  let st := run (init true 86400 false ∅)
              [(mkEnv 0%Q None,
                RGenerate (fun _ => Ok "Ciao!") (mkEnv 2%Q None)
                  (mkUser 30 "Ingegnere" "cucina") (mkPoi "Da Mario" "ristorante" ""));
               (mkEnv 5%Q None,
                RGetCached (mkUser 31 "ingegnere" "Cucina")
                  (mkPoi "da mario" "Ristorante" ""))] in
  cache_stats st = mkStats 1 1 2
  /\ option_map r_hit_rate (get_cache_stats st) = Some (1 / 2)%Q.
Proof. vm_compute. auto. Qed.

(** C10 as stated fails when caching is disabled: [get_cached_message]
    returns before it touches the counters. *)
Lemma disabled_lookup_not_counted :
  let st := init false 86400 true ∅ in
  let st' := snd (get_cached_message st (mkEnv 0%Q None)
                    (mkUser 30 "Ingegnere" "cucina") (mkPoi "Da Mario" "ristorante" "")) in
  total (cache_stats st') = total (cache_stats st)
  /\ total (cache_stats st') <> total (cache_stats st) + 1.
Proof. vm_compute. split; [reflexivity | discriminate]. Qed.

End GeneratorFacts.

(** ** Properties of the query service *)

Module QueryFacts.
Import Cache QueryEngine QueryService RoutingSpec.

(** *** Routing *)

Lemma range_hours_le r :
  Qle_bool (total_seconds r / 3600) 24 = (r <=? one_day).
Proof.
  unfold total_seconds, one_day.
  destruct (r <=? 86400000000) eqn:Hr.
  - apply Qle_bool_iff. apply Z.leb_le in Hr.
    unfold Qdiv, Qmult, Qinv, Qle, inject_Z. simpl. lia.
  - apply not_true_is_false. intros H. apply Qle_bool_iff in H.
    apply Z.leb_gt in Hr. revert H.
    unfold Qdiv, Qmult, Qinv, Qle, inject_Z. simpl. lia.
Qed.

(** What the code computes on naive datetimes: the recency test passes
    until the start is 8 full days old. *)
Lemma should_use_stream_naive now s e g :
  should_use_stream now (mkDatetime s false) (mkDatetime e false) g
  = Ok (((now - s <? 8 * one_day) && CacheUtils.str_in g ["minute"; "hour"])
        || (e - s <=? one_day)).
Proof.
  unfold should_use_stream, dt_sub, days. simpl micros. simpl aware. simpl bind.
  cbv beta zeta. rewrite range_hours_le.
  assert (Hd : ((now - s) / 86400000000 <=? 7) = (now - s <? 8 * one_day)).
  { unfold one_day. apply eq_true_iff_eq. rewrite Z.ltb_lt, Z.leb_le.
    Z.div_mod_to_equations. lia. }
  rewrite Hd. unfold CacheUtils.str_in. simpl existsb.
  destruct ((now - s <? 8 * one_day) && _); [done |].
  by destruct (e - s <=? one_day).
Qed.

(** The code and the rule agree unless the start lies more than 7 and
    less than 8 days back. *)
Lemma should_use_stream_agrees now s e g :
  now - s <= seven_days \/ 8 * one_day <= now - s ->
  should_use_stream now (mkDatetime s false) (mkDatetime e false) g
  = Ok (routes_to_stream now s e g).
Proof.
  intros H. rewrite should_use_stream_naive. unfold routes_to_stream. f_equal.
  assert (Hd : (now - s <? 8 * one_day) = (now - seven_days <=? s)).
  { unfold seven_days, one_day in *. apply eq_true_iff_eq.
    rewrite Z.ltb_lt, Z.leb_le. lia. }
  rewrite Hd.
  destruct ((now - seven_days <=? s) && _); [done |].
  by destruct (e - s <=? one_day).
Qed.

(** C3 fails on the code.  A query at hourly granularity whose start lies
    7 days and 12 hours back and whose range is those 7.5 days goes to the
    stream source, where the rule sends it to the batch source:
    [timedelta.days] drops the 12 hours, so the test [days_ago <= 7]
    passes. *)
Theorem should_use_stream_days_truncated :
  let day := 86400000000 in
  let now := 10 * day in
  let start_time := now - 7 * day - 12 * 3600000000 in
  let end_time := now in
  should_use_stream now (mkDatetime start_time false) (mkDatetime end_time false) "hour"
  = Ok true
  /\ routes_to_stream now start_time end_time "hour" = false.
Proof. vm_compute. auto. Qed.

(** Scenario S5: six days back at hourly granularity goes to the stream,
    ninety days back at daily granularity to the batch source. *)
Example routing_boundary :
  let day := 86400000000 in
  let now := 100 * day in
  should_use_stream now (mkDatetime (now - 6 * day) false) (mkDatetime now false) "hour"
  = Ok true
  /\ should_use_stream now (mkDatetime (now - 90 * day) false) (mkDatetime now false) "day"
     = Ok false.
Proof. vm_compute. auto. Qed.

(** An aware [start_time] cannot be subtracted from the naive
    [datetime.now()]. *)
Example should_use_stream_aware :
  should_use_stream 1000 (mkDatetime 0 true) (mkDatetime 10 true) "hour" = Raise TypeError.
Proof. reflexivity. Qed.

(** *** The [cached] flag *)

Section WithRuntime.
Context {R : Runtime}.
Variable json_dumps_sorted : pyval -> string.

Lemma points_of_list_dicts rows :
  points_of_list (List.map point_dict rows) = Ok rows.
Proof.
  induction rows as [| [t v md] rows IH]; [done |].
  simpl. rewrite IH. destruct t as [m a]. by destruct md.
Qed.

Lemma response_of_dict_dict r : response_of_dict (response_dict r) = Ok r.
Proof.
  destruct r as [d s c]. unfold response_of_dict, response_dict. simpl.
  by rewrite points_of_list_dicts.
Qed.

(** On a hit the endpoint answers with the stored mapping as it is. *)
Lemma query_timeseries_hit m e q b v b' :
  QueryCacheManager.cache m = Some b ->
  backend_get b (QueryCacheManager.redis m) (probe e) (QueryCacheManager.get_cache_key json_dumps_sorted "timeseries" (query_dict q))
    = (Ok v, b') ->
  truthy v = true ->
  fst (query_timeseries json_dumps_sorted m e q)
  = try_except (response_of_dict v) (fun _ => Raise HTTPError).
Proof.
  intros Hc Hg Ht. unfold query_timeseries, query_timeseries_body, QueryCacheManager.get.
  rewrite Hc, Hg. simpl. by rewrite Ht.
Qed.

(** C2 fails on the code.  With the in-process cache, a first request
    misses, is answered from the stream source with [cached = False] and
    stored; the same request 100 seconds later, with both sources down, is
    answered from the cache, and its [cached] flag is [False] too: the hit
    path hands back the stored mapping, whose flag was written by the miss
    path. *)
Theorem query_timeseries_hit_not_flagged (rows : list TimeSeriesDataPoint) :
  let day := 86400000000 in
  let q := mkQuery "visits" (mkDatetime (9 * day) false) (mkDatetime (10 * day) false)
             "hour" (Some []) in
  let m0 := QueryCacheManager.init true 86400 false ∅ in
  let e1 := mkEnv (Cache.mkEnv 0%Q None) (Cache.mkEnv 1%Q None) (10 * day)
              (fun _ => Ok rows) (fun _ => Ok []) in
  let e2 := mkEnv (Cache.mkEnv 100%Q None) (Cache.mkEnv 101%Q None) (10 * day)
              (fun _ => Raise ConnectionError) (fun _ => Raise ConnectionError) in
  let r1 := query_timeseries json_dumps_sorted m0 e1 q in
  let r2 := query_timeseries json_dumps_sorted (snd r1) e2 q in
  fst r1 = Ok (mkResponse rows "stream" false)
  /\ fst r2 = Ok (mkResponse rows "stream" false)
  /\ (forall r, fst r2 = Ok r -> cached r = false).
Proof.
  intros day q m0 e1 e2 r1 r2.
  set (key := QueryCacheManager.get_cache_key json_dumps_sorted "timeseries" (query_dict q)).
  set (resp := mkResponse rows "stream" false).
  assert (Hr1 : r1 =
    (Ok resp,
     QueryCacheManager.mk
       (Some (Memory (MemoryCache.mk
          (<[key := (response_dict resp, Some (1 + inject_Z 300)%Q)]> ∅)
          (Some 86400))))
       ∅)).
  { subst r1. unfold query_timeseries, query_timeseries_body, QueryCacheManager.get. simpl.
    fold key. unfold MemoryCache.get. simpl. rewrite lookup_empty. reflexivity. }
  assert (Hr2 : fst r2 = Ok resp).
  { subst r2. rewrite Hr1.
    unfold query_timeseries, query_timeseries_body, QueryCacheManager.get. simpl.
    fold key. unfold MemoryCache.get. simpl. rewrite lookup_insert_eq. simpl.
    by rewrite points_of_list_dicts. }
  rewrite Hr2, Hr1. simpl. split; [done |]. split; [done |].
  by intros r [= <-].
Qed.

End WithRuntime.

End QueryFacts.

(** ** Properties of the proximity gate *)

Module OperatorsFacts.
Import CacheUtils Operators OperatorsProps.

Lemma answered_mono e es m : answered es m -> answered (e :: es) m.
Proof.
  intros (e0 & pl & r & Hin & H). exists e0, pl, r. split; [by right | done].
Qed.

Lemma generate_message_answered e es conn user shop :
  memo_answered es conn ->
  let '(message, conn', _) := _generate_message e conn user shop in
  memo_answered (e :: es) conn'
  /\ (str_truthy message = true -> answered (e :: es) message).
Proof.
  intros Hmemo.
  assert (Hold : memo_answered (e :: es) conn)
    by (intros k m Hk; apply answered_mono; eauto).
  unfold _generate_message.
  destruct (shop_id shop) as [sid |]; simpl; [| done].
  destruct (_message_cache conn !! get_cache_key (user_id user) sid) as [m |] eqn:Hm.
  { split; [done |]. intros _. eauto. }
  destruct (payload user shop) as [pl | x]; simpl; [| done].
  destruct (post_generate e pl) as [r | x] eqn:Hp; simpl; [| done].
  destruct (status_code r =? 200) eqn:Hs; simpl; [| done].
  destruct (json_message r) as [m | x] eqn:Hj; simpl; [| done].
  apply Z.eqb_eq in Hs.
  assert (Hans : answered (e :: es) m) by (exists e, pl, r; split; [by left | done]).
  split; [| done].
  intros k m'. simpl. rewrite lookup_insert.
  destruct (decide (get_cache_key (user_id user) sid = k)); [by intros [= <-] | by eauto].
Qed.

Lemma too_far_false ev :
  too_far ev = false -> exists d, distance ev = Some d /\ (d <= MAX_POI_DISTANCE)%Q.
Proof.
  unfold too_far. destruct (distance ev) as [d |]; [| done].
  intros H. apply negb_false_iff, Qle_bool_iff in H. eauto.
Qed.

Section WithRuntime.
Context {R : Runtime}.

Lemma stage_answered es conn x :
  memo_answered es conn -> memo_answered (fst x :: es) (stage conn x).
Proof.
  intros Hmemo. destruct x as [e [key ev]]. unfold stage. simpl.
  assert (Hold : memo_answered (e :: es) conn)
    by (intros k m Hk; apply answered_mono; eauto).
  destruct (too_far ev); [done |].
  destruct (int_of_str key) as [uid | x]; [| done].
  destruct (_get_user_profile e uid) as [user |]; [| done].
  pose proof (generate_message_answered e es conn user ev Hmemo) as Hg.
  destruct (_generate_message e conn user ev) as [[message conn1] calls1].
  by destruct Hg.
Qed.

Lemma run_answered xs : forall es conn,
  memo_answered es conn ->
  memo_answered (List.rev (List.map fst xs) ++ es) (run conn xs).
Proof.
  induction xs as [| x xs IH]; intros es conn Hmemo; [done |].
  simpl. rewrite <- app_assoc. simpl. apply IH. by apply stage_answered.
Qed.


End WithRuntime.

#[local] Existing Instance RefRuntime.runtime.


End OperatorsFacts.

(** ** More on the in-process cache *)

Module MemoryCacheExtra.
Import MemoryCache MemoryCacheProps MemoryCacheFacts.

(** X1.  [delete(k)] answers [True] exactly when an entry was stored
    under [k], expired or not; afterwards, and until the next [set] on
    [k], [get(k)] returns [None] at any time, whatever other calls are
    made in between; the entries of other keys are left as they were. *)
Theorem memory_delete_get (self : t) (k k' : string) (cs : list (Q * call)) (now : Q) :
  Forall (fun c => ~ writes k c) cs ->
  fst (get (run (snd (delete self k)) cs) k now) = PNone
  /\ (fst (delete self k) = true <-> is_Some (cache self !! k))
  /\ (k' <> k -> cache (snd (delete self k)) !! k' = cache self !! k').
Proof.
  intros Hw.
  assert (Hk : cache (snd (delete self k)) !! k = None).
  { unfold delete. destruct (cache self !! k) eqn:E; simpl; [| done].
    apply lookup_delete_eq. }
  split; [| split].
  - unfold get. by rewrite (run_absent cs _ k Hw Hk).
  - unfold delete. destruct (cache self !! k) eqn:E; simpl.
    + split; [by eauto | done].
    + split; [done | by intros [x Hx]].
  - intros Hne. unfold delete. destruct (cache self !! k); simpl; [| done].
    by apply lookup_delete_ne.
Qed.

Lemma memory_delete_get_witness :
  let self := snd (set (init 86400) "k" (PStr "v") (Some 10) 0%Q) in
  fst (delete self "k") = true
  /\ fst (get (run (snd (delete self "k")) [(1%Q, CGet "k"); (2%Q, CSet "j" PNone None)])
            "k" 3%Q) = PNone.
Proof.
  intros self.
  destruct (memory_delete_get self "k" "j" [(1%Q, CGet "k"); (2%Q, CSet "j" PNone None)] 3%Q)
    as (H1 & H2 & _).
  - repeat constructor; simpl; [tauto | discriminate].
  - split; [| exact H1]. apply H2. vm_compute. eauto.
Defined.

(** X2.  [exists(k)] and [get(k)] made at the same instant agree: they
    leave the same cache behind (both drop an expired entry), [exists]
    answers [True] exactly when the entry is stored and not yet expired,
    in which case [get] returns its value, and [False] exactly when [get]
    finds nothing. *)
Theorem memory_exists_get (self : t) (k : string) (now : Q) :
  snd (exists_ self k now) = snd (get self k now)
  /\ (fst (exists_ self k now) = true <->
      exists v e, cache self !! k = Some (v, e) /\ expired now e = false
                  /\ fst (get self k now) = v)
  /\ (fst (exists_ self k now) = false ->
      fst (get self k now) = PNone /\ cache (snd (get self k now)) !! k = None).
Proof.
  unfold exists_, get.
  destruct (cache self !! k) as [[v e] |] eqn:Hk.
  - destruct (expired now e) eqn:He; simpl.
    + split; [done |]. split.
      * split; [done |]. intros (v' & e' & [= <- <-] & He' & _). congruence.
      * intros _. split; [done |]. apply lookup_delete_eq.
    + split; [done |]. split; [| done].
      split; [| done]. intros _. by exists v, e.
  - simpl. split; [done |]. split; [| done].
    split; [done |]. by intros (v & e & H & _).
Qed.

(** X3.  A sweep of the reaper removes exactly the entries that have
    expired by the time of the sweep, and no reader can tell that it ran:
    a [get] made at or after the sweep returns what it would have
    returned without it. *)
Theorem memory_cleanup_invisible (self : t) (k : string) (now now' : Q) :
  (now <= now')%Q ->
  cache (cleanup self now) !! k =
    match cache self !! k with
    | Some (v, e) => if expired now e then None else Some (v, e)
    | None => None
    end
  /\ fst (get (cleanup self now) k now') = fst (get self k now').
Proof.
  intros Hle.
  assert (Hc : cache (cleanup self now) !! k =
    match cache self !! k with
    | Some (v, e) => if expired now e then None else Some (v, e)
    | None => None
    end).
  { unfold cleanup. simpl. destruct (cache self !! k) as [[v e] |] eqn:Hk.
    - destruct (expired now e) eqn:He.
      + apply map_lookup_filter_None. right. intros x Hx.
        rewrite Hk in Hx. injection Hx as <-. simpl. congruence.
      + apply map_lookup_filter_Some. split; [done | exact He].
    - apply map_lookup_filter_None. by left. }
  split; [exact Hc |].
  unfold get. rewrite Hc.
  destruct (cache self !! k) as [[v e] |] eqn:Hk; [| done].
  destruct (expired now e) eqn:He; [| by destruct (expired now' e)].
  destruct e as [e |]; [| discriminate].
  apply expired_spec in He.
  assert (He' : expired now' (Some e) = true) by (apply expired_spec; lra).
  by rewrite He'.
Qed.

Lemma memory_cleanup_invisible_witness :
  let self := snd (set (snd (set (init 86400) "a" (PStr "x") (Some 10) 0%Q))
                     "b" (PStr "y") (Some 100) 0%Q) in
  fst (get (cleanup self 50%Q) "a" 60%Q) = fst (get self "a" 60%Q)
  /\ fst (get (cleanup self 50%Q) "b" 60%Q) = fst (get self "b" 60%Q).
Proof.
  intros self. split.
  - apply (memory_cleanup_invisible self "a" 50%Q 60%Q). vm_compute. discriminate.
  - apply (memory_cleanup_invisible self "b" 50%Q 60%Q). vm_compute. discriminate.
Defined.

Lemma run_entry_forever cs : forall self k v,
  Forall (fun c => ~ writes k c) cs ->
  cache self !! k = Some (v, None) ->
  cache (run self cs) !! k = Some (v, None).
Proof.
  induction cs as [| c cs IH]; intros self k v Hw Hk; [done |].
  inversion Hw as [| ? ? Hc Hcs]; subst. simpl.
  apply IH; [done |].
  destruct (run_call_entry self c k Hc) as [Heq | [_ (v' & e' & Hk' & _)]].
  - by rewrite Heq.
  - rewrite Hk in Hk'. discriminate.
Qed.

(** X4.  [set] without a ttl uses the cache's [default_ttl]; and in a
    cache built without a default the entry never expires: until the next
    [set] or [delete] on the key, [get] returns the value at any time,
    through any other calls and sweeps. *)
Theorem memory_set_default_ttl (self : t) (k : string) (v : pyval) (t t' : Q)
    (cs : list (Q * call)) :
  Forall (fun c => ~ writes k c) cs ->
  match default_ttl self with
  | Some d => set self k v None t = set self k v (Some d) t
  | None => fst (get (run (snd (set self k v None t)) cs) k t') = v
  end.
Proof.
  intros Hw. destruct (default_ttl self) as [d |] eqn:Hd.
  - unfold set. by rewrite Hd.
  - assert (Hk : cache (snd (set self k v None t)) !! k = Some (v, None)).
    { unfold set. rewrite Hd. simpl. apply lookup_insert_eq. }
    unfold get. by rewrite (run_entry_forever cs _ k v Hw Hk).
Qed.

Lemma memory_set_default_ttl_witness :
  fst (get (run (snd (set (mk ∅ None) "k" (PStr "v") None 0%Q))
              [(1000000%Q, CCleanup); (2000000%Q, CGet "k")]) "k" 3000000%Q)
  = PStr "v".
Proof.
  apply (memory_set_default_ttl (mk ∅ None) "k" (PStr "v") 0%Q 3000000%Q
           [(1000000%Q, CCleanup); (2000000%Q, CGet "k")]).
  repeat constructor; simpl; tauto.
Defined.

End MemoryCacheExtra.

(** ** More on the remote cache *)

Module RedisCacheExtra.
Import RedisCache RedisCacheOps RedisCacheProps RedisCacheOpsProps.

Section WithRuntime.
Context {R : Runtime}.

(** X5.  [delete] and [exists] never let an exception reach the caller,
    and answer [False], leaving the server untouched, when the backend is
    unavailable.  With the backend answering, a key written by [set] with
    a positive ttl exists until it expires, [delete] on it answers [True],
    and after the [delete] the key neither exists nor is found by
    [get]. *)
Theorem redis_delete_exists (self : t) (srv : server) (f : fault) (key : string)
    (value : pyval) (ttl : Z) (t t' : Q) :
  (~ raises (fst (delete self srv f key t)) /\ ~ raises (exists_ self srv f key t))
  /\ (unavailable self f ->
      delete self srv f key t = (Ok false, srv) /\ exists_ self srv f key t = Ok false)
  /\ (client self = true ->
      fst (set self srv None key value (Some ttl) t) = Ok true ->
      (t' < t + inject_Z ttl)%Q ->
      let srv1 := snd (set self srv None key value (Some ttl) t) in
      let srv2 := snd (delete self srv1 None key t') in
      exists_ self srv1 None key t' = Ok true
      /\ fst (delete self srv1 None key t') = Ok true
      /\ exists_ self srv2 None key t' = Ok false
      /\ get self srv2 None key t' = Ok PNone).
Proof.
  split; [| split].
  - split; intros [e He].
    + unfold delete in He. destruct (negb (client self)); [done |].
      destruct (client_delete srv f key t) as [[n | x] srv']; simpl in He; done.
    + unfold exists_ in He. destruct (negb (client self)); [done |].
      destruct (client_exists srv f key t) as [n | x]; simpl in He; done.
  - intros [Hc | [e ->]]; unfold delete, exists_.
    + by rewrite Hc.
    + by destruct (negb (client self)).
  - intros Hc Hset Hlt srv1 srv2.
    assert (Hsrv1 : exists b, srv1 = <[key := (b, (t + inject_Z ttl)%Q)]> srv).
    { subst srv1. revert Hset. unfold set. rewrite Hc. simpl.
      destruct (payload value) as [b | x]; [| done].
      unfold client_setex. destruct (ttl <=? 0); [done |]. simpl. by eauto. }
    destruct Hsrv1 as [b Hsrv1].
    assert (Hq : Qle_bool (t + inject_Z ttl) t' = false).
    { apply not_true_is_false. intros H. apply Qle_bool_iff in H. lra. }
    assert (Hsrv2 : srv2 = base.delete key srv1).
    { subst srv2. unfold delete. rewrite Hc. simpl. unfold client_delete.
      rewrite Hsrv1, lookup_insert_eq. done. }
    rewrite Hsrv2. unfold exists_, delete, get. rewrite Hc. simpl.
    unfold client_exists, client_delete, client_get.
    rewrite lookup_delete_eq, Hsrv1, lookup_insert_eq, Hq. done.
Qed.

(** X6.  With the client connected and the server answering, [info()]
    reports a hit rate whenever the two keyspace counters are numbers or
    absent: the [or 1] in the denominator keeps the division from raising.
    With counters that are not negative the rate lies in [0, 1], and it is
    [hits / (hits + misses)] as soon as one of them is positive. *)
Theorem redis_info_hit_rate (self : t) (reply : list (string * pyval)) :
  let hits := get_default reply "keyspace_hits" (PInt 0) in
  let misses := get_default reply "keyspace_misses" (PInt 1) in
  client self = true ->
  nonnegative hits -> nonnegative misses ->
  exists h m rate,
    number hits = Some h /\ number misses = Some m
    /\ info self None reply =
         Connected (get_default reply "used_memory_human" PNone)
           (get_default reply "connected_clients" PNone)
           (get_default reply "uptime_in_days" PNone) rate
    /\ (0 <= rate <= 1)%Q
    /\ (~ (h + m == 0)%Q -> rate == h / (h + m))%Q.
Proof.
  intros hits misses Hc Hh Hm. unfold nonnegative in Hh, Hm.
  destruct (number hits) as [h |] eqn:Eh; [| done].
  destruct (number misses) as [m |] eqn:Em; [| done].
  unfold info. rewrite Hc. simpl. fold hits misses. rewrite Eh, Em.
  destruct (Qeq_bool (h + m) 0) eqn:Es.
  - apply Qeq_bool_iff in Es.
    assert (E : (h / 1 == h)%Q) by field.
    exists h, m, (h / 1)%Q. repeat split; try done; rewrite E; lra.
  - assert (Hs : ~ (h + m == 0)%Q).
    { intros H. apply Qeq_bool_iff in H. congruence. }
    rewrite Es.
    exists h, m, (h / (h + m))%Q. repeat split; try done.
    + apply Qle_shift_div_l; lra.
    + apply Qle_shift_div_r; lra.
Qed.

End WithRuntime.

#[local] Existing Instance RefRuntime.runtime.

Lemma redis_delete_exists_witness :
  let self := mk true 86400 in
  let srv1 := snd (set self ∅ None "k" (PStr "ciao") (Some 300) 0%Q) in
  exists_ self srv1 None "k" 10%Q = Ok true
  /\ fst (delete self srv1 None "k" 10%Q) = Ok true
  /\ exists_ self (snd (delete self srv1 None "k" 10%Q)) None "k" 10%Q = Ok false
  /\ get self (snd (delete self srv1 None "k" 10%Q)) None "k" 10%Q = Ok PNone.
Proof.
  intros self srv1.
  destruct (redis_delete_exists self ∅ None "k" (PStr "ciao") 300 0%Q 10%Q)
    as (_ & _ & H).
  apply H; vm_compute; reflexivity.
Defined.

Lemma redis_info_hit_rate_witness :
  exists rate,
    info (mk true 86400) None [("keyspace_hits", PInt 3); ("keyspace_misses", PInt 1)]
    = Connected PNone PNone PNone rate
    /\ (0 <= rate <= 1)%Q.
Proof.
  destruct (redis_info_hit_rate (mk true 86400)
              [("keyspace_hits", PInt 3); ("keyspace_misses", PInt 1)])
    as (h & m & rate & _ & _ & Hi & Hr & _);
    [reflexivity | vm_compute; discriminate | vm_compute; discriminate |].
  exists rate. split; [exact Hi | exact Hr].
Defined.

End RedisCacheExtra.

(** ** More on the message generator *)

Module GeneratorExtra.
Import CacheUtils GeneratorService PyProps PyFacts GeneratorProps GeneratorFacts.
Import FingerprintSpec Fingerprint GeneratorExtraProps.

(** *** The shape of the key *)

Lemma hex_digit_is_hex n : 0 <= n < 16 -> is_hex (MD5.hex_digit n) = true.
Proof.
  intros H. rewrite <- (Z2Nat.id n) by lia.
  assert (Hk : (Z.to_nat n < 16)%nat) by lia.
  revert Hk. generalize (Z.to_nat n). intros k Hk.
  do 16 (destruct k as [| k]; [reflexivity |]). lia.
Qed.

Lemma le_bytes_bytes n : forall x, Forall (fun b => 0 <= b < 256) (MD5.le_bytes n x).
Proof.
  induction n as [| n IH]; intros x; simpl; constructor; [| apply IH].
  apply Z.mod_pos_bound. lia.
Qed.

Lemma le_bytes_length n : forall x, List.length (MD5.le_bytes n x) = n.
Proof. induction n as [| n IH]; intros x; simpl; [done | by rewrite IH]. Qed.

Lemma hex_shape bs :
  Forall (fun b => 0 <= b < 256) bs ->
  String.length (MD5.hex bs) = (2 * List.length bs)%nat
  /\ str_forallb is_hex (MD5.hex bs) = true.
Proof.
  induction 1 as [| b bs Hb Hbs [IH1 IH2]]; [done |].
  simpl. rewrite IH1, IH2. split; [lia |].
  rewrite !hex_digit_is_hex; [done | |].
  - apply Z.mod_pos_bound. lia.
  - split; [apply Z.div_pos; lia | apply Z.div_lt_upper_bound; lia].
Qed.

Lemma hexdigest_shape s :
  String.length (MD5.hexdigest s) = 32%nat
  /\ str_forallb is_hex (MD5.hexdigest s) = true.
Proof.
  unfold MD5.hexdigest, MD5.digest.
  destruct (List.fold_left _ _ _) as [[[a b] c] d].
  destruct (hex_shape (MD5.le_bytes 4 a ++ MD5.le_bytes 4 b ++ MD5.le_bytes 4 c
                         ++ MD5.le_bytes 4 d)) as [H1 H2].
  - repeat (apply Forall_app; split); apply le_bytes_bytes.
  - rewrite H1, H2. by rewrite !length_app, !le_bytes_length.
Qed.

Section WithRuntime.
Context {R : Runtime}.

(** X7.  Whatever the request, the cache key is a string of exactly 32
    lowercase hexadecimal digits. *)
Theorem generate_cache_key_shape (u : UserParams) (p : PoiParams) :
  String.length (generate_cache_key u p) = 32%nat
  /\ str_forallb is_hex (generate_cache_key u p) = true.
Proof. unfold generate_cache_key. apply hexdigest_shape. Qed.

(** X8.  Empty and blank entries among the interests, as doubled or
    trailing commas leave them, do not change the cache key: the key of
    the joined list is the key of the list without them. *)
Theorem generate_cache_key_blank_interests (a : Z) (prof : string) (p : PoiParams)
    (l : list string) :
  Forall (fun s => has_no "," s = true) l ->
  generate_cache_key (mkUser a prof (join "," l)) p
  = generate_cache_key
      (mkUser a prof (join "," (List.filter (fun i => str_truthy (strip i)) l))) p.
Proof.
  intros Hl.
  assert (Hf : Forall (fun s => has_no "," s = true)
                 (List.filter (fun i => str_truthy (strip i)) l)).
  { apply List.Forall_forall. intros x [Hx _]%List.filter_In.
    exact (proj1 (List.Forall_forall _ _) Hl x Hx). }
  apply (key_interests (mkUser a prof (join "," (List.filter _ l))) p (join "," l)).
  simpl. rewrite !interests_items_join by done.
  f_equal. f_equal. symmetry.
  clear. induction l as [| x l IH]; [done |]. simpl.
  destruct (str_truthy (strip x)) eqn:E; simpl; [by rewrite E, IH | exact IH].
Qed.

(** *** The fallback *)

(** X9.  The fallback message is never empty and always names the shop:
    it is the shop's name between two fixed pieces of text, the second one
    not empty. *)
Theorem fallback_names_shop (shop_name category : string) :
  str_truthy (_get_fallback_message shop_name category) = true
  /\ exists before after,
       _get_fallback_message shop_name category = before +:+ shop_name +:+ after
       /\ str_truthy after = true.
Proof.
  split; [apply fallback_truthy |].
  unfold _get_fallback_message, templates_get.
  repeat match goal with
         | |- context [String.eqb ?a ?b] => destruct (String.eqb a b)
         end.
  - by exists "Sei vicino a ", "! Un ottimo posto per una pausa pranzo gustosa.".
  - by exists "", " è a pochi passi! Che ne dici di un ottimo caffè?".
  - by exists "Dai un'occhiata alle offerte di ", " proprio qui vicino!".
  - by exists "", " è qui vicino, perfetto per fare la spesa velocemente.".
  - by exists "Sei vicino a ", "! Fermati a dare un'occhiata.".
Qed.

(** *** [generate_message] as a whole *)

Lemma call_llm_generated llm u p : _call_llm llm u p = Ok (generated llm u p).
Proof.
  unfold _call_llm, generated.
  by destruct (llm _).
Qed.

Lemma backend_set_ok b srv e key v ttl :
  exists r b' srv', backend_set b srv e key v ttl = (Ok r, b', srv').
Proof.
  destruct b as [r | m]; simpl.
  - pose proof (RedisCacheFacts.set_total r srv (redis_fault e) key v ttl (now e)) as [x Hx].
    destruct (RedisCache.set r srv (redis_fault e) key v ttl (now e)) as [res srv'].
    simpl in Hx. subst res. by eauto.
  - by eauto.
Qed.

Lemma get_cached_message_ok st e u p :
  exists v st', get_cached_message st e u p = (Ok v, st').
Proof.
  unfold get_cached_message.
  destruct (cache st) as [b |]; [| by eauto].
  destruct (negb (CACHE_ENABLED st)); [by eauto |].
  destruct (backend_get_ok b (redis st) e (generate_cache_key u p)) as (v & b' & ->).
  by eauto.
Qed.

Lemma cache_message_ok st e u p msg :
  exists r st', cache_message st e u p msg = (Ok r, st').
Proof.
  unfold cache_message.
  destruct (cache st) as [b |]; [| by eauto].
  destruct (negb (CACHE_ENABLED st)); [by eauto |].
  destruct (backend_set_ok b (redis st) e (generate_cache_key u p) (PStr msg)
              (Some (if str_in (str_lower (category p)) popular_categories
                     then CACHE_TTL st * 2 else CACHE_TTL st)))
    as (r & b' & srv' & ->).
  by eauto.
Qed.

(** X10.  [generate_message] never lets an exception reach its caller,
    whatever the LLM and the cache backend do.  It answers with the flag
    [True] only for a non-empty value found in the cache, and with the
    flag [False] it answers the LLM's text without surrounding white
    space, or the fallback when the LLM call raised. *)
Theorem generate_message_total (llm : llm_client) (st : state) (e e' : env)
    (u : UserParams) (p : PoiParams) :
  exists v flag,
    fst (generate_message llm st e e' u p) = Ok (v, flag)
    /\ (flag = true ->
        truthy v = true /\ fst (get_cached_message st e u p) = Ok v)
    /\ (flag = false -> v = PStr (generated llm u p)).
Proof.
  unfold generate_message.
  destruct (get_cached_message_ok st e u p) as (v & st1 & Hg). rewrite Hg. simpl.
  destruct (truthy v) eqn:Hv.
  - exists v, true. by repeat split.
  - rewrite call_llm_generated.
    destruct (cache_message_ok st1 e' u p (generated llm u p)) as (r & st2 & ->).
    exists (PStr (generated llm u p)), false. by repeat split.
Qed.

(** X11.  With caching disabled every request goes to the LLM: the
    answer is the generated message with the flag [False], and the
    module's globals (cache, counters) are left as they were. *)
Theorem generate_message_cache_disabled (llm : llm_client) (st : state) (e e' : env)
    (u : UserParams) (p : PoiParams) :
  cache st = None \/ CACHE_ENABLED st = false ->
  generate_message llm st e e' u p = (Ok (PStr (generated llm u p), false), st).
Proof.
  intros H.
  assert (Hg : get_cached_message st e u p = (Ok PNone, st)).
  { unfold get_cached_message. destruct H as [H | H]; rewrite H; [done |].
    by destruct (cache st). }
  assert (Hs : cache_message st e' u p (generated llm u p) = (Ok false, st)).
  { unfold cache_message. destruct H as [H | H]; rewrite H; [done |].
    by destruct (cache st). }
  unfold generate_message. rewrite Hg. simpl.
  by rewrite call_llm_generated, Hs.
Qed.

(** What a request finds when the in-process cache holds an entry. *)
Lemma generate_message_on_entry llm st e e' u p m v ex :
  CACHE_ENABLED st = true ->
  cache st = Some (Memory m) ->
  MemoryCache.cache m !! generate_cache_key u p = Some (v, Some ex) ->
  fst (generate_message llm st e e' u p) =
    if negb (MemoryCache.expired (now e) (Some ex)) && truthy v
    then Ok (v, true)
    else Ok (PStr (generated llm u p), false).
Proof.
  intros He Hc Hk. unfold generate_message, get_cached_message.
  rewrite Hc, He. cbn [negb backend_get]. unfold MemoryCache.get. rewrite Hk.
  destruct (MemoryCache.expired (now e) (Some ex)) eqn:Hex; cbn - [cache_message].
  - rewrite call_llm_generated.
    match goal with
    | |- context [cache_message ?s ?e ?u ?p ?g] =>
        by destruct (cache_message_ok s e u p g) as (r & st2 & ->)
    end.
  - destruct (truthy v) eqn:Hv; cbn - [cache_message]; [done |].
    rewrite call_llm_generated.
    match goal with
    | |- context [cache_message ?s ?e ?u ?p ?g] =>
        by destruct (cache_message_ok s e u p g) as (r & st2 & ->)
    end.
Qed.

(** What a miss leaves in the in-process cache. *)
Lemma generate_message_miss_state llm st e e' u p :
  memory_miss st u p (now e) ->
  let st1 := snd (generate_message llm st e e' u p) in
  fst (generate_message llm st e e' u p) = Ok (PStr (generated llm u p), false)
  /\ CACHE_ENABLED st1 = true
  /\ CACHE_TTL st1 = CACHE_TTL st
  /\ exists m1, cache st1 = Some (Memory m1)
       /\ MemoryCache.cache m1 !! generate_cache_key u p
          = Some (PStr (generated llm u p),
                  Some (now e' + inject_Z (entry_ttl st p))%Q).
Proof.
  intros (He & m & Hc & Hmiss). unfold generate_message, get_cached_message.
  rewrite Hc, He. simpl.
  destruct (MemoryCache.get m (generate_cache_key u p) (now e)) as [v m'] eqn:Hg.
  simpl in Hmiss. simpl. rewrite Hmiss, call_llm_generated.
  unfold cache_message. simpl. rewrite He. simpl.
  repeat split; try done.
  eexists. split; [reflexivity |]. simpl. unfold entry_ttl. apply lookup_insert_eq.
Qed.



End WithRuntime.

#[local] Existing Instance RefRuntime.runtime.

Lemma generate_cache_key_blank_interests_witness :
  generate_cache_key (mkUser 30 "Ingegnere" "cucina,, ,tecnologia,") (mkPoi "Bar" "bar" "")
  = generate_cache_key (mkUser 30 "Ingegnere" "cucina,tecnologia") (mkPoi "Bar" "bar" "").
Proof.
  apply (generate_cache_key_blank_interests 30 "Ingegnere" (mkPoi "Bar" "bar" "")
           ["cucina"; ""; " "; "tecnologia"; ""]).
  repeat constructor.
Defined.

Lemma generate_message_cache_disabled_witness :
  generate_message (fun _ => Ok " Ciao! ") (init false 86400 true ∅)
    (mkEnv 0%Q None) (mkEnv 1%Q None)
    (mkUser 30 "Ingegnere" "cucina") (mkPoi "Bar" "bar" "")
  = (Ok (PStr "Ciao!", false), init false 86400 true ∅).
Proof.
  apply (generate_message_cache_disabled (fun _ => Ok " Ciao! ") (init false 86400 true ∅)).
  left. reflexivity.
Defined.



End GeneratorExtra.

(** ** More on the query service *)

Module QueryExtra.
Import Cache QueryEngine QueryService RoutingSpec QueryFacts QueryExtraProps.

(** X14.  Routing works on naive datetimes only.  When either bound of
    the range carries a time zone, [should_use_stream] raises [TypeError];
    otherwise it answers, and picks the stream source exactly when the
    start is less than eight days before now and the granularity is minute
    or hour, or the range is at most 24 hours. *)
Theorem should_use_stream_total (now : Z) (start_time end_time : datetime)
    (granularity : string) :
  should_use_stream now start_time end_time granularity
  = if aware start_time || aware end_time then Raise TypeError
    else Ok (stream_routed now (micros start_time) (micros end_time) granularity).
Proof.
  destruct start_time as [s [|]], end_time as [e [|]]; try reflexivity.
  apply should_use_stream_naive.
Qed.

Lemma append_length s1 s2 :
  String.length (s1 +:+ s2) = (String.length s1 + String.length s2)%nat.
Proof.
  induction s1 as [| c s1 IH]; [done |].
  change (S (String.length (s1 +:+ s2)) = S (String.length s1 + String.length s2)).
  by rewrite IH.
Qed.

Lemma append_inj_length s1 : forall s2 t1 t2,
  String.length t1 = String.length t2 ->
  s1 +:+ t1 = s2 +:+ t2 -> s1 = s2 /\ t1 = t2.
Proof.
  induction s1 as [| c s1 IH]; intros [| d s2] t1 t2 Hl H.
  - done.
  - exfalso. change (t1 = String d (s2 +:+ t2)) in H. subst t1.
    simpl in Hl. rewrite append_length in Hl. lia.
  - exfalso. change (String c (s1 +:+ t1) = t2) in H. subst t2.
    simpl in Hl. rewrite append_length in Hl. lia.
  - change (String c (s1 +:+ t1) = String d (s2 +:+ t2)) in H.
    injection H as -> H. destruct (IH s2 t1 t2 Hl H) as [-> ->]. done.
Qed.

Section WithRuntime.
Context {R : Runtime}.
Variable json_dumps_sorted : pyval -> string.

Abbreviation get_cache_key := (QueryCacheManager.get_cache_key json_dumps_sorted).
Abbreviation query_timeseries := (QueryService.query_timeseries json_dumps_sorted).
Abbreviation timeseries_key q := (get_cache_key "timeseries" (query_dict q)).

(** X15.  Keys of different kinds of query never collide: two cache keys
    are equal only when the query types are equal and the parameters have
    the same digest, whatever characters the query types contain. *)
Theorem get_cache_key_inj (t1 t2 : string) (p1 p2 : pyval) :
  get_cache_key t1 p1 = get_cache_key t2 p2 ->
  t1 = t2
  /\ MD5.hexdigest (utf8_encode (json_dumps_sorted p1))
     = MD5.hexdigest (utf8_encode (json_dumps_sorted p2)).
Proof.
  unfold QueryCacheManager.get_cache_key. intros H.
  rewrite <- !(PyFacts.append_assoc _ ":" _), <- !(PyFacts.append_assoc "query:" _ _) in H.
  apply append_inj_length in H.
  - destruct H as [H1 H2]. split; [| exact H2].
    assert (Hl : String.length (":" : string) = String.length (":" : string)) by done.
    destruct (append_inj_length _ _ _ _ Hl H1) as [H3 _].
    change (String "q" (String "u" (String "e" (String "r" (String "y" (String ":" t1)))))
            = String "q" (String "u" (String "e" (String "r" (String "y" (String ":" t2))))))
      in H3.
    congruence.
  - by rewrite !(proj1 (GeneratorExtra.hexdigest_shape _)).
Qed.

Lemma manager_get_ok m e key :
  exists v, fst (QueryCacheManager.get m e key) = Ok v.
Proof.
  unfold QueryCacheManager.get. destruct (QueryCacheManager.cache m) as [b |]; [| by eauto].
  destruct (backend_get b (QueryCacheManager.redis m) e key) as [[v | x] b']; simpl; eauto.
Qed.

Lemma manager_set_ok m e key v ttl :
  exists r, fst (QueryCacheManager.set m e key v ttl) = Ok r.
Proof.
  unfold QueryCacheManager.set. destruct (QueryCacheManager.cache m) as [b |]; [| by eauto].
  destruct (backend_set b (QueryCacheManager.redis m) e key v ttl) as [[[r | x] b'] srv'];
    simpl; eauto.
Qed.

(** What the endpoint does once the lookup has found nothing. *)
Lemma query_timeseries_on_miss m e q v m1 :
  QueryCacheManager.get m (probe e) (timeseries_key q) = (Ok v, m1) ->
  truthy v = false ->
  fst (query_timeseries m e q) = (if naive q then from_source e q else Raise HTTPError)
  /\ (forall x, fst (query_timeseries m e q) = Raise x -> snd (query_timeseries m e q) = m1)
  /\ (forall r, fst (query_timeseries m e q) = Ok r ->
      snd (query_timeseries m e q)
      = snd (QueryCacheManager.set m1 (store e) (timeseries_key q) (response_dict r)
               (Some 300))).
Proof.
  intros Hg Hv. unfold QueryService.query_timeseries, query_timeseries_body.
  rewrite Hg, Hv, should_use_stream_total. unfold naive, from_source.
  destruct (aware (start_time q)), (aware (end_time q)); simpl; try done.
  set (use := stream_routed _ _ _ _).
  destruct (if use then stream_rows e q else batch_rows e q) as [rows | x]; simpl; [| done].
  set (resp := mkResponse rows _ false).
  destruct (manager_set_ok m1 (store e) (timeseries_key q) (response_dict resp) (Some 300))
    as [r Hr].
  destruct (QueryCacheManager.set m1 (store e) (timeseries_key q) (response_dict resp)
              (Some 300)) as [res m2] eqn:Hs.
  simpl in Hr. subst res. simpl. split; [done |]. split; [done |].
  intros r' [= <-]. by rewrite Hs.
Qed.

(** X16.  The endpoint lets no exception but the 500 out, and a request
    that fails stores nothing: the cache is left as the lookup left it. *)
Theorem query_timeseries_error (m : QueryCacheManager.t) (e : env) (q : TimeSeriesQuery)
    (x : exn) :
  fst (query_timeseries m e q) = Raise x ->
  x = HTTPError
  /\ snd (query_timeseries m e q)
     = snd (QueryCacheManager.get m (probe e) (timeseries_key q)).
Proof.
  intros H. split.
  - revert H. unfold QueryService.query_timeseries.
    destruct (query_timeseries_body _ m e q) as [[r | y] m']; simpl; congruence.
  - destruct (manager_get_ok m (probe e) (timeseries_key q)) as [v Hv].
    destruct (QueryCacheManager.get m (probe e) (timeseries_key q)) as [res m1] eqn:Hg.
    simpl in Hv. subst res. simpl.
    destruct (truthy v) eqn:Ht.
    + unfold QueryService.query_timeseries, query_timeseries_body. by rewrite Hg, Ht.
    + destruct (query_timeseries_on_miss m e q v m1 Hg Ht) as (_ & Hx & _). eauto.
Qed.

(** X17.  A query whose bounds carry a time zone is only ever answered
    from the cache: on a miss it fails with the 500, whatever the
    sources hold. *)
Theorem query_timeseries_aware_fails (m : QueryCacheManager.t) (e : env)
    (q : TimeSeriesQuery) :
  naive q = false ->
  (forall v, fst (QueryCacheManager.get m (probe e) (timeseries_key q)) = Ok v ->
             truthy v = false) ->
  fst (query_timeseries m e q) = Raise HTTPError.
Proof.
  intros Hn Hv.
  destruct (manager_get_ok m (probe e) (timeseries_key q)) as [v Hg].
  destruct (QueryCacheManager.get m (probe e) (timeseries_key q)) as [res m1] eqn:Hq.
  simpl in Hg. subst res. specialize (Hv v eq_refl).
  destruct (query_timeseries_on_miss m e q v m1 Hq Hv) as (H & _). by rewrite H, Hn.
Qed.

(** X18.  An outage of the cache is invisible to the client.  Without a
    cache, or with a Redis cache that has no client or whose round trips
    fail, a query with naive bounds is answered from the source the
    routing selects, and the cache manager is left as it was. *)
Theorem query_timeseries_cache_out (m : QueryCacheManager.t) (e : env)
    (q : TimeSeriesQuery) :
  cache_out m e ->
  naive q = true ->
  query_timeseries m e q = (from_source e q, m).
Proof.
  intros Hout Hn.
  assert (Hg : QueryCacheManager.get m (probe e) (timeseries_key q) = (Ok PNone, m)).
  { unfold cache_out in Hout. unfold QueryCacheManager.get.
    destruct m as [[[r | mc] |] srv]; simpl in *; [| done | done].
    unfold RedisCache.get. destruct Hout as [-> | [Hp _]]; [done |].
    destruct (RedisCache.client r); [| done]. simpl.
    by destruct (redis_fault (probe e)). }
  assert (Hs : forall v, snd (QueryCacheManager.set m (store e) (timeseries_key q) v
                                (Some 300)) = m).
  { intros v. unfold cache_out in Hout. unfold QueryCacheManager.set.
    destruct m as [[[r | mc] |] srv]; simpl in *; [| done | done].
    unfold RedisCache.set. destruct Hout as [-> | [_ Hp]]; [done |].
    destruct (RedisCache.client r); [| done]. simpl.
    destruct (RedisCache.payload v); [| done]. unfold RedisCache.client_setex.
    by destruct (redis_fault (store e)). }
  destruct (query_timeseries_on_miss m e q PNone m Hg eq_refl) as (Hr & Hx & Hok).
  rewrite Hn in Hr.
  destruct (query_timeseries m e q) as [res m'] eqn:Hq. simpl in *. subst res. f_equal.
  destruct (from_source e q) as [r | x]; [| by eauto].
  by rewrite (Hok r eq_refl), Hs.
Qed.


End WithRuntime.

#[local] Existing Instance RefRuntime.runtime.

Lemma get_cache_key_inj_witness :
  ("timeseries" : string) = "timeseries"
  /\ MD5.hexdigest (utf8_encode (dumps_example (PDict [("metric", PStr "visits")])))
     = MD5.hexdigest (utf8_encode (dumps_example (PDict [("metric", PStr "visits")]))).
Proof.
  apply (get_cache_key_inj dumps_example "timeseries" "timeseries"
           (PDict [("metric", PStr "visits")]) (PDict [("metric", PStr "visits")])).
  reflexivity.
Defined.

Lemma query_timeseries_error_witness :
  let day := 86400000000 in
  let q := mkQuery "visits" (mkDatetime (9 * day) false) (mkDatetime (10 * day) false)
             "hour" None in
  let m := QueryCacheManager.init true 86400 false ∅ in
  let e := mkEnv (Cache.mkEnv 0%Q None) (Cache.mkEnv 1%Q None) (10 * day)
             (fun _ => Raise ConnectionError) (fun _ => Ok []) in
  HTTPError = HTTPError
  /\ snd (QueryService.query_timeseries dumps_example m e q)
     = snd (QueryCacheManager.get m (probe e)
              (QueryCacheManager.get_cache_key dumps_example "timeseries" (query_dict q))).
Proof.
  intros day q m e.
  apply (query_timeseries_error dumps_example m e q HTTPError).
  vm_compute. reflexivity.
Defined.

Lemma query_timeseries_aware_fails_witness :
  let day := 86400000000 in
  let q := mkQuery "visits" (mkDatetime (9 * day) true) (mkDatetime (10 * day) true)
             "hour" None in
  let m := QueryCacheManager.init true 86400 false ∅ in
  let e := mkEnv (Cache.mkEnv 0%Q None) (Cache.mkEnv 1%Q None) (10 * day)
             (fun _ => Ok []) (fun _ => Ok []) in
  fst (QueryService.query_timeseries dumps_example m e q) = Raise HTTPError.
Proof.
  intros day q m e.
  apply (query_timeseries_aware_fails dumps_example m e q); [reflexivity |].
  intros v. vm_compute. by intros [= <-].
Defined.

Lemma query_timeseries_cache_out_witness :
  let day := 86400000000 in
  let q := mkQuery "visits" (mkDatetime (9 * day) false) (mkDatetime (10 * day) false)
             "day" None in
  let m := QueryCacheManager.mk (Some (Redis (RedisCache.mk true 86400))) ∅ in
  let e := mkEnv (Cache.mkEnv 0%Q (Some ConnectionError))
             (Cache.mkEnv 1%Q (Some TimeoutError)) (10 * day)
             (fun _ => Ok []) (fun _ => Raise ConnectionError) in
  QueryService.query_timeseries dumps_example m e q
  = (Ok (mkResponse [] "stream" false), m).
Proof.
  intros day q m e.
  apply (query_timeseries_cache_out dumps_example m e q); [| reflexivity].
  right. split; discriminate.
Defined.


End QueryExtra.

(** ** More on the proximity stage *)

Module OperatorsExtra.
Import CacheUtils Operators OperatorsProps PyProps.

(** The memo's keys keep users and shops apart. *)

Lemma str_of_int_inj a b : str_of_int a = str_of_int b -> a = b.
Proof.
  assert (Hback : forall d,
            option_map Z.of_int (NilZero.int_of_string (NilZero.string_of_int d))
            = Some (Z.of_int d)).
  { intros d. destruct (Decimal.int_eq_dec d (Decimal.Pos Decimal.Nil)) as [-> | H1];
      [by rewrite NilZero.isi_posnil |].
    destruct (Decimal.int_eq_dec d (Decimal.Neg Decimal.Nil)) as [-> | H2];
      [by rewrite NilZero.isi_negnil |].
    by rewrite NilZero.isi. }
  unfold str_of_int. intros H.
  pose proof (Hback (Z.to_int a)) as Ha. pose proof (Hback (Z.to_int b)) as Hb.
  rewrite H, Hb, !DecimalZ.of_to in Ha. congruence.
Qed.

Lemma string_of_uint_no_colon d : has_no ":" (NilEmpty.string_of_uint d) = true.
Proof. induction d; simpl; try done; exact IHd. Qed.

Lemma str_of_int_no_colon z : has_no ":" (str_of_int z) = true.
Proof.
  unfold str_of_int, NilZero.string_of_int, NilZero.string_of_uint.
  destruct (Z.to_int z) as [[] | []]; try done; apply string_of_uint_no_colon.
Qed.

Lemma append_colon_inj a : forall c b d,
  has_no ":" a = true -> has_no ":" c = true ->
  a +:+ ":" +:+ b = c +:+ ":" +:+ d -> a = c /\ b = d.
Proof.
  induction a as [| x a IH]; intros [| y c] b d Ha Hc H.
  - change (String ":" b = String ":" d) in H. by injection H as ->.
  - change (String ":" b = String y (c +:+ ":" +:+ d)) in H. injection H as <- _.
    discriminate.
  - change (String x (a +:+ ":" +:+ b) = String ":" d) in H. injection H as -> _.
    discriminate.
  - change (String x (a +:+ ":" +:+ b) = String y (c +:+ ":" +:+ d)) in H.
    injection H as -> H. unfold has_no in Ha, Hc. simpl in Ha, Hc.
    apply andb_true_iff in Ha as [_ Ha]. apply andb_true_iff in Hc as [_ Hc].
    by destruct (IH c b d Ha Hc H) as [-> ->].
Qed.

(** X30.  The memo's keys keep users and shops apart: two pairs of a user
    id and a shop id have the same key only if they are the same pair, so
    a message memoised for one user and shop is never served for
    another. *)
Theorem get_cache_key_pair (user_id shop_id user_id' shop_id' : Z) :
  get_cache_key user_id shop_id = get_cache_key user_id' shop_id' ->
  user_id = user_id' /\ shop_id = shop_id'.
Proof.
  unfold get_cache_key. intros H.
  apply append_colon_inj in H; try apply str_of_int_no_colon.
  destruct H as [H1 H2]. split; by apply str_of_int_inj.
Qed.

Lemma get_cache_key_pair_witness : 7 = 7 /\ 1 = 1.
Proof. apply (get_cache_key_pair 7 1 7 1). reflexivity. Defined.

(** [_generate_message] writes the memo only under a key that is not in
    it. *)
Lemma generate_message_memo_kept e conn user shop k m :
  _message_cache conn !! k = Some m ->
  _message_cache (snd (fst (_generate_message e conn user shop))) !! k = Some m.
Proof.
  intros Hk. unfold _generate_message.
  destruct (item (shop_id shop)) as [sid | x]; [| done].
  destruct (_message_cache conn !! get_cache_key (user_id user) sid) eqn:Hm; [done |].
  destruct (payload user shop) as [pl | x]; [| done].
  destruct (post_generate e pl) as [r | x]; [| done].
  destruct (status_code r =? 200); [| done].
  destruct (json_message r) as [msg | x]; [| done].
  simpl. rewrite lookup_insert_ne; [done |]. intros E. subst k. congruence.
Qed.

Section WithRuntime.
Context {R : Runtime}.

Lemma stage_memo_kept conn x k m :
  _message_cache conn !! k = Some m -> _message_cache (stage conn x) !! k = Some m.
Proof.
  intros Hk. destruct x as [e [key ev]]. unfold stage. simpl.
  destruct (too_far ev); [done |].
  destruct (int_of_str key) as [uid | x]; [| done].
  destruct (_get_user_profile e uid) as [user |]; [| done].
  pose proof (generate_message_memo_kept e conn user ev k m Hk) as H.
  by destruct (_generate_message e conn user ev) as [[message conn1] calls1].
Qed.

Lemma run_memo_kept xs : forall conn k m,
  _message_cache conn !! k = Some m -> _message_cache (run conn xs) !! k = Some m.
Proof.
  induction xs as [| x xs IH]; intros conn k m Hk; [done |].
  simpl. apply IH. by apply stage_memo_kept.
Qed.


(** X21.  The stage raises in one case only: the event is within 200
    metres and its key is not the text of an integer; the exception is
    the one [int] raises.  Beyond 200 metres such a key passes. *)
Theorem stage_raises_iff (e : env) (conn : connections) (key : string) (ev : event)
    (x : exn) :
  fst (fst (check_proximity_and_generate_message e conn (key, ev))) = Raise x
  <-> too_far ev = false /\ int_of_str key = Raise x.
Proof.
  unfold check_proximity_and_generate_message.
  destruct (too_far ev); simpl; [by split; [| intros [? _]] |].
  destruct (int_of_str key) as [uid | y]; simpl.
  - destruct (_get_user_profile e uid) as [user |]; simpl.
    + destruct (_generate_message e conn user ev) as [[message conn1] calls1].
      simpl. by split; [| intros [_ ?]].
    + by split; [| intros [_ ?]].
  - split; [by intros [= ->] | by intros [_ [= ->]]].
Qed.

(** X22.  One event costs at most one profile lookup and at most one call
    to the generator, in this order, and the generator is called only
    after a profile was found and the memo had nothing for the user and
    the shop. *)
Theorem stage_calls (e : env) (conn : connections) (key : string) (ev : event) :
  let calls := snd (check_proximity_and_generate_message e conn (key, ev)) in
  calls = []
  \/ (exists uid, calls = [ProfileLookup uid] /\ int_of_str key = Ok uid)
  \/ (exists uid user sid pl,
        calls = [ProfileLookup uid; GeneratorCall pl]
        /\ int_of_str key = Ok uid
        /\ _get_user_profile e uid = Some user
        /\ shop_id ev = Some sid
        /\ _message_cache conn !! get_cache_key (user_id user) sid = None
        /\ payload user ev = Ok pl).
Proof.
  unfold check_proximity_and_generate_message.
  destruct (too_far ev); simpl; [by left |].
  destruct (int_of_str key) as [uid | y] eqn:Hkey; simpl; [| by left].
  destruct (_get_user_profile e uid) as [user |] eqn:Hu; simpl; [| by right; left; eauto].
  unfold _generate_message.
  destruct (shop_id ev) as [sid |] eqn:Hs; simpl; [| by right; left; eauto].
  destruct (_message_cache conn !! get_cache_key (user_id user) sid) eqn:Hm;
    [by right; left; eauto |].
  destruct (payload user ev) as [pl | y] eqn:Hp; simpl; [| by right; left; eauto].
  right; right. exists uid, user, sid, pl.
  destruct (post_generate e pl) as [r | y]; simpl; [| done].
  destruct (status_code r =? 200); [| done].
  by destruct (json_message r).
Qed.

End WithRuntime.

#[local] Existing Instance RefRuntime.runtime.


End OperatorsExtra.

(** ** The data pipeline: parsing, enrichment, replay *)

Module PipelineFacts.
Import CacheUtils Operators OperatorsProps OperatorsIO BytewaxFlow StreamReplay.
Import PipelineProps.

Section WithRuntime.
Context {R : Runtime}.
Variable py_str : pyval -> string.
Variable loads_str : string -> result pyval.
Variable exception_text : exn -> pyval -> string.
Variable attribute_error_text : option pyval -> string.

#[local] Arguments check_proximity_and_generate_message : simpl never.

Abbreviation parse :=
  (parse_kafka_message py_str loads_str exception_text attribute_error_text).
Abbreviation parse_text' :=
  (parse_text py_str loads_str exception_text attribute_error_text).

Lemma validate_keyed d :
  validate_message (key_of py_str d, PDict d)
  = Returns (match dict_get d "user_id" with
             | Some uid => negb (String.eqb (py_str uid) "error")
             | None => false
             end).
Proof.
  unfold validate_message, key_of.
  destruct (dict_get d "user_id") as [uid |]; simpl.
  - by destruct (String.eqb (py_str uid) "error").
  - by destruct (String.eqb (py_str (PStr "unknown")) "error").
Qed.

Lemma parse_text_validate raw s :
  validate_message (parse_text' raw s)
  = Returns (match loads_str s with
             | Ok (PDict d) =>
                 match dict_get d "user_id" with
                 | Some uid => negb (String.eqb (py_str uid) "error")
                 | None => false
                 end
             | _ => false
             end)
  /\ (validate_message (parse_text' raw s) = Returns true ->
      exists d, loads_str s = Ok (PDict d) /\ parse_text' raw s = (key_of py_str d, PDict d)).
Proof.
  unfold parse_text.
  destruct (loads_str s) as [[| b | z | q | t | t | m a | l | d] | []];
    try (split; [reflexivity | discriminate]).
  split; [apply validate_keyed | eauto].
Qed.

(** X23.  Parsing followed by validation never raises, although
    [validate_message] alone does on an error item whose value is not a
    mapping.  A message passes exactly when it carries a mapping (as
    such, or as the JSON text of a [str] or of UTF-8 [bytes]) that has a
    [user_id] whose text is not [error]; what passes is that mapping,
    keyed by the text of its [user_id]. *)
Theorem parse_then_validate (msg : kafka_msg) :
  validate_message (parse msg)
  = Returns (match carried loads_str msg with
             | Some d =>
                 match dict_get d "user_id" with
                 | Some uid => negb (String.eqb (py_str uid) "error")
                 | None => false
                 end
             | None => false
             end)
  /\ (validate_message (parse msg) = Returns true ->
      exists d uid,
        carried loads_str msg = Some d
        /\ dict_get d "user_id" = Some uid
        /\ parse msg = (py_str uid, PDict d)).
Proof.
  assert (Hkey : forall d, validate_message (key_of py_str d, PDict d) = Returns true ->
                   exists uid, dict_get d "user_id" = Some uid
                     /\ key_of py_str d = py_str uid).
  { intros d. rewrite validate_keyed. unfold key_of.
    destruct (dict_get d "user_id") as [uid |]; [by eauto | discriminate]. }
  assert (Htext : forall raw s,
    validate_message (parse_text' raw s)
    = Returns (match (match loads_str s with Ok (PDict d) => Some d | _ => None end) with
               | Some d =>
                   match dict_get d "user_id" with
                   | Some uid => negb (String.eqb (py_str uid) "error")
                   | None => false
                   end
               | None => false
               end)
    /\ (validate_message (parse_text' raw s) = Returns true ->
        exists d uid,
          match loads_str s with Ok (PDict d) => Some d | _ => None end = Some d
          /\ dict_get d "user_id" = Some uid
          /\ parse_text' raw s = (py_str uid, PDict d))).
  { intros raw s. destruct (parse_text_validate raw s) as [H1 H2]. split.
    - rewrite H1. by destruct (loads_str s) as [[] | []].
    - intros H. destruct (H2 H) as (d & Hl & Hp). rewrite Hp in H.
      destruct (Hkey d H) as (uid & Hu & Hk). exists d, uid.
      by rewrite Hl, Hp, Hk. }
  destruct msg as [k v |]; [| by split].
  destruct v as [| b | z | q | s | b | m a | l | d]; try (split; [reflexivity | discriminate]).
  - apply Htext.
  - simpl. destruct (utf8_decode b) as [s | x]; [apply Htext | by split].
  - simpl. split; [apply validate_keyed |].
    intros H. destruct (Hkey d H) as (uid & Hu & Hk). exists d, uid.
    by rewrite <- Hk.
Qed.

Abbreviation replay_process' := (replay_process py_str).

(** What [replay_process] does once the nearest shop is at hand. *)
Lemma replay_process_shop s ev lat lon shop :
  dict_get ev "latitude" = Some lat ->
  dict_get ev "longitude" = Some lon ->
  fetchrow s lon lat = Ok (Some shop) ->
  let near := update (mkEvent ev None None None None None) shop in
  replay_process' s ev
  = match check_proximity_and_generate_message (stage_env s) (mkConn ∅)
            (key_of py_str ev, near) with
    | (Raise x, _, calls) => (Raise x, ShopQuery lon lat :: List.map Stage calls)
    | (Ok [], _, calls) => (Ok tt, ShopQuery lon lat :: List.map Stage calls)
    | (Ok (it :: _), _, calls) =>
        (Ok tt, ShopQuery lon lat :: (List.map Stage calls ++ write_to_clickhouse s it)%list)
    end.
Proof.
  intros Hlat Hlon Hrow near.
  unfold replay_process, enrich_with_nearest_shop, _find_nearest_shop. simpl.
  rewrite Hlat, Hlon. simpl. rewrite Hrow. fold near. unfold key_of.
  destruct (check_proximity_and_generate_message _ _ _) as [[[out | x] conn'] calls];
    [| done].
  by destruct out.
Qed.




End WithRuntime.

(** *** The replay loop *)

Section Replay.
Variable S : Type.
Variable process_callback : S -> list (string * pyval) -> result unit * S.
Variable timestamp_of : pyval -> result Q.

Abbreviation loop := (replay_loop S process_callback timestamp_of).
Abbreviation stamp ev :=
  (timestamp_of (default (PStr EmptyString) (dict_get ev "timestamp"))).

(** X27.  The replay returns at the first event later than the end of the
    range, and nothing that arrives after that event is looked at, not
    even events inside the range: the count and what the callback has
    done do not depend on it. *)
Theorem replay_loop_stops (end_timestamp : Q) (user_filter : option (list Z))
    (pre post post' : list pyval) (ev : list (string * pyval)) (t : Q) (st : S) (n : Z) :
  stamp ev = Ok t ->
  (end_timestamp < t)%Q ->
  (exists k, fst (loop end_timestamp user_filter (pre ++ PDict ev :: post) st n) = Some k)
  /\ loop end_timestamp user_filter (pre ++ PDict ev :: post) st n
     = loop end_timestamp user_filter (pre ++ PDict ev :: post') st n.
Proof.
  intros Ht Hlt.
  assert (Hpast : negb (Qle_bool t end_timestamp) = true).
  { apply negb_true_iff, not_true_is_false. intros H%Qle_bool_iff. lra. }
  revert st n. induction pre as [| m pre IH]; intros st n; simpl.
  - rewrite Ht, Hpast. eauto.
  - destruct m as [| | | | | | | | d]; try apply IH.
    destruct (stamp d) as [t' | x]; [| apply IH].
    destruct (negb (Qle_bool t' end_timestamp)); [by eauto |].
    destruct (filtered_out user_filter d); [apply IH |].
    destruct (process_callback st d) as [[u | x] st']; apply IH.
Qed.

(** X28.  The replay returns only when an event later than the end of the
    range has arrived, and the count it returns is at most the number of
    messages that came before that event. *)
Theorem replay_loop_returns (end_timestamp : Q) (user_filter : option (list Z))
    (msgs : list pyval) (st : S) (n k : Z) :
  fst (loop end_timestamp user_filter msgs st n) = Some k ->
  exists pre ev post t,
    msgs = (pre ++ PDict ev :: post)%list
    /\ stamp ev = Ok t /\ (end_timestamp < t)%Q
    /\ n <= k <= n + Z.of_nat (List.length pre).
Proof.
  revert st n. induction msgs as [| m msgs IH]; intros st n; simpl; [done |].
  assert (Hstep : forall st' n', n <= n' <= n + 1 ->
            fst (loop end_timestamp user_filter msgs st' n') = Some k ->
            exists pre ev post t,
              (m :: msgs = pre ++ PDict ev :: post)%list
              /\ stamp ev = Ok t /\ (end_timestamp < t)%Q
              /\ n <= k <= n + Z.of_nat (List.length pre)).
  { intros st' n' Hn H. destruct (IH st' n' H) as (pre & ev & post & t & -> & Ht & Hlt & Hk).
    exists (m :: pre), ev, post, t. repeat split; try done; simpl length; lia. }
  destruct m as [| | | | | | | | d]; try (apply Hstep; lia).
  destruct (stamp d) as [t' | x] eqn:Ht; [| apply Hstep; lia].
  destruct (negb (Qle_bool t' end_timestamp)) eqn:Hpast.
  - intros [= <-]. exists [], d, msgs, t'. repeat split; try done; simpl; try lia.
    apply negb_true_iff in Hpast. apply Qnot_le_lt. intros H%Qle_bool_iff. congruence.
  - destruct (filtered_out user_filter d); [apply Hstep; lia |].
    destruct (process_callback st d) as [[u | x] st']; apply Hstep; lia.
Qed.

(** X29.  The callback is handed only events whose timestamp reads as an
    instant not later than the end of the range and that the user filter
    lets through: whatever holds of its state at the start and is kept by
    every such call holds when the loop is left. *)
Theorem replay_loop_invariant (P : S -> Prop) (end_timestamp : Q)
    (user_filter : option (list Z)) (msgs : list pyval) (st : S) (n : Z) :
  (forall st ev t,
     stamp ev = Ok t -> (t <= end_timestamp)%Q -> filtered_out user_filter ev = false ->
     P st -> P (snd (process_callback st ev))) ->
  P st ->
  P (snd (loop end_timestamp user_filter msgs st n)).
Proof.
  intros Hkeep. revert st n. induction msgs as [| m msgs IH]; intros st n Hst; simpl; [done |].
  destruct m as [| | | | | | | | d]; try by apply IH.
  destruct (stamp d) as [t' | x] eqn:Ht; [| by apply IH].
  destruct (negb (Qle_bool t' end_timestamp)) eqn:Hpast; [done |].
  destruct (filtered_out user_filter d) eqn:Hf; [by apply IH |].
  apply negb_false_iff, Qle_bool_iff in Hpast.
  pose proof (Hkeep st d t' Ht Hpast Hf Hst) as Hnext.
  destruct (process_callback st d) as [[u | x] st']; by apply IH.
Qed.

End Replay.

#[local] Existing Instance RefRuntime.runtime.

(** User 7 twelve metres from the bar is written with the generator's
    message; several kilometres away the row has an empty [poi_info]. *)
Example replay_process_run :
  let s d := mkServices
               (Operators.mkEnv (fun uid => Ok [mkProfile uid 30 "Ingegnere" "cucina"])
                  (fun _ => Ok (mkHttp 200 (Ok "Un caffè da Caffè X?"))))
               (fun _ _ => Ok (Some (mkShop 1 "Caffè X" "bar" d)))
               (fun _ => Ok 1700000000000000) in
  let ev := [("user_id", PInt 7); ("latitude", PFloat 45); ("longitude", PFloat 9);
             ("timestamp", PStr "2023-11-14T22:13:20+00:00")] in
  inserts (snd (replay_process str_example (s 12%Q) ev))
  = [mkUserEvent (PInt 0) 1700000000000000 7 (PFloat 45) (PFloat 9) 12 "Caffè X"
       "Un caffè da Caffè X?"]
  /\ inserts (snd (replay_process str_example (s 11500%Q) ev))
     = [mkUserEvent (PInt 0) 1700000000000000 7 (PFloat 45) (PFloat 9) 11500 "Caffè X" ""].
Proof. vm_compute. auto. Qed.


Lemma replay_loop_stops_witness :
  let pre := [PDict [("timestamp", PInt 5); ("user_id", PInt 7)]; PStr "junk"] in
  let late := [("timestamp", PInt 100); ("user_id", PInt 7)] in
  let post := [PDict [("timestamp", PInt 6); ("user_id", PInt 7)]] in
  (exists k, fst (replay_loop _ record_event timestamp_example 50 None
                    (pre ++ PDict late :: post) [] 0) = Some k)
  /\ replay_loop _ record_event timestamp_example 50 None (pre ++ PDict late :: post) [] 0
     = replay_loop _ record_event timestamp_example 50 None (pre ++ PDict late :: []) [] 0.
Proof.
  intros pre late post.
  apply (replay_loop_stops _ record_event timestamp_example 50 None pre post [] late 100);
    vm_compute; reflexivity.
Defined.

Lemma replay_loop_returns_witness :
  let msgs := [PDict [("timestamp", PInt 5); ("user_id", PInt 7)]; PStr "junk";
               PDict [("timestamp", PInt 100); ("user_id", PInt 7)]] in
  exists pre ev post t,
    msgs = (pre ++ PDict ev :: post)%list
    /\ timestamp_example (default (PStr EmptyString) (dict_get ev "timestamp")) = Ok t
    /\ (50 < t)%Q
    /\ 0 <= 1 <= 0 + Z.of_nat (List.length pre).
Proof.
  intros msgs.
  apply (replay_loop_returns _ record_event timestamp_example 50 None msgs [] 0 1).
  vm_compute. reflexivity.
Defined.

Lemma replay_loop_invariant_witness :
  let msgs := [PDict [("timestamp", PInt 5); ("user_id", PInt 7)];
               PDict [("timestamp", PInt 6); ("user_id", PInt 8)];
               PDict [("timestamp", PInt 100); ("user_id", PInt 7)]] in
  List.Forall (fun ev => filtered_out (Some [7]) ev = false)
    (snd (replay_loop _ record_event timestamp_example 50 (Some [7]) msgs [] 0)).
Proof.
  intros msgs.
  apply (replay_loop_invariant _ record_event timestamp_example
           (List.Forall (fun ev => filtered_out (Some [7]) ev = false)) 50 (Some [7]) msgs [] 0).
  - intros st ev t _ _ Hf Hst. simpl. apply List.Forall_app. split; [exact Hst |].
    constructor; [exact Hf | constructor].
  - constructor.
Defined.

End PipelineFacts.
